(** * ws-shutdown: the Shutdowner of shutdown.go

    A shallow embedding of [Shutdowner] (shutdown.go) and the properties its
    specification states about it.

    Every mutation of a [Shutdowner] happens between [g.lock.Lock()] and the
    matching [Unlock], so one call of [addActiveConnection],
    [removeActiveConnection] or of the locked part of [Shutdown] is one atomic
    step on the shared record; concurrent goroutines are interleavings of such
    steps. *)

From Stdlib Require Import ZArith List Bool Lia String.
Import ListNotations.
Open Scope Z_scope.

(** ** Go's [int] (64 bits, as on amd64 and arm64; two's complement, silent
    wrap-around) *)

Module GoInt.

Definition intSize : Z := 64.
Definition minInt : Z := - 2 ^ (intSize - 1).
Definition maxInt : Z := 2 ^ (intSize - 1) - 1.

Definition wrap (z : Z) : Z :=
  (z + 2 ^ (intSize - 1)) mod 2 ^ intSize - 2 ^ (intSize - 1).

(** [x++] and [x--] *)
Definition incr (x : Z) : Z := wrap (x + 1).
Definition decr (x : Z) : Z := wrap (x - 1).

Definition in_range (z : Z) : Prop := minInt <= z <= maxInt.

End GoInt.

Import GoInt.

(** ** Channels, panics, outcomes *)

(** A [chan struct{}] on which nothing is ever sent: all that matters is
    whether it was made and whether it was closed. *)
Inductive chan : Set := nil_chan | open_chan | closed_chan.

Inductive panic_value : Set :=
| close_of_nil_channel
| close_of_closed_channel
| handler_panic (msg : string).

(** [close(c)] *)
Definition close (c : chan) : panic_value + chan :=
  match c with
  | nil_chan => inl close_of_nil_channel
  | closed_chan => inl close_of_closed_channel
  | open_chan => inr closed_chan
  end.

(** [<-c] can proceed only on a closed channel (there are no senders). *)
Definition recv_ready (c : chan) : bool :=
  match c with closed_chan => true | _ => false end.

(** How a call ends: it returns, it panics, or it never gets past a blocking
    operation. *)
Inductive outcome (A : Type) : Type :=
| Returns (a : A)
| Panics (p : panic_value)
| Blocks.
Arguments Returns {A} a.
Arguments Panics {A} p.
Arguments Blocks {A}.

(** ** The Shutdowner *)

Record Shutdowner : Set := mkShutdowner {
  lock : bool;                (* sync.Mutex: true while held *)
  closed : chan;
  shutdownRequested : bool;
  activeConnections : Z       (* int *)
}.

Definition set_lock (b : bool) (g : Shutdowner) : Shutdowner :=
  mkShutdowner b (closed g) (shutdownRequested g) (activeConnections g).
Definition set_closed (c : chan) (g : Shutdowner) : Shutdowner :=
  mkShutdowner (lock g) c (shutdownRequested g) (activeConnections g).
Definition set_shutdownRequested (b : bool) (g : Shutdowner) : Shutdowner :=
  mkShutdowner (lock g) (closed g) b (activeConnections g).
Definition set_activeConnections (n : Z) (g : Shutdowner) : Shutdowner :=
  mkShutdowner (lock g) (closed g) (shutdownRequested g) n.

(** [g.lock.Lock()]: [None] when the mutex is held, the caller then waits. *)
Definition Lock (g : Shutdowner) : option Shutdowner :=
  if lock g then None else Some (set_lock true g).

Definition Unlock (g : Shutdowner) : Shutdowner := set_lock false g.

(** [NewShutdowner()] *)
Definition NewShutdowner : Shutdowner :=
  mkShutdowner false open_chan false 0.

(** The zero value [var s Shutdowner]: no channel was made. *)
Definition zeroShutdowner : Shutdowner :=
  mkShutdowner false nil_chan false 0.

Definition addActiveConnection (g : Shutdowner) : outcome bool * Shutdowner :=
  match Lock g with
  | None => (Blocks, g)
  | Some g1 =>
      if shutdownRequested g1 then (Returns false, Unlock g1)
      else
        let g2 := set_activeConnections (incr (activeConnections g1)) g1 in
        (Returns true, Unlock g2)
  end.

(** The deferred [Unlock] also runs when [close] panics. *)
Definition removeActiveConnection (g : Shutdowner) : outcome unit * Shutdowner :=
  match Lock g with
  | None => (Blocks, g)
  | Some g1 =>
      let g2 := set_activeConnections (decr (activeConnections g1)) g1 in
      if shutdownRequested g2 && (activeConnections g2 =? 0) then
        match close (closed g2) with
        | inr c => (Returns tt, Unlock (set_closed c g2))
        | inl p => (Panics p, Unlock g2)
        end
      else (Returns tt, Unlock g2)
  end.

(** The locked part of [Shutdown]. Its [Unlock] is not deferred: a panic of
    [close] leaves the mutex held. *)
Definition Shutdown_locked (g : Shutdowner) : outcome unit * Shutdowner :=
  match Lock g with
  | None => (Blocks, g)
  | Some g1 =>
      let g2 := set_shutdownRequested true g1 in
      if activeConnections g2 =? 0 then
        match close (closed g2) with
        | inr c => (Returns tt, Unlock (set_closed c g2))
        | inl p => (Panics p, g2)
        end
      else (Returns tt, Unlock g2)
  end.

(** ** Errors and contexts *)

(** Non-nil [error] values. The string of [otherError] stands for the identity
    of an error value this package does not know (what [server.Shutdown] may
    return). [joinError] is the [*joinError] built by [errors.Join]: a pointer,
    so the value carries the address it was allocated at. *)
#[warnings="-register-all"] Inductive error : Set :=
| DeadlineExceeded
| Canceled
| otherError (msg : string)
| joinError (addr : nat) (errs : list error).

(** [err == target] on error values; two [*joinError] are equal when they are
    the same pointer. *)
Definition same_error (err target : error) : bool :=
  match err, target with
  | DeadlineExceeded, DeadlineExceeded => true
  | Canceled, Canceled => true
  | otherError a, otherError b => String.eqb a b
  | joinError a _, joinError b _ => Nat.eqb a b
  | _, _ => false
  end.

(** [errors.Join(errs...)]: nil values are dropped, nil when none is left;
    otherwise a [joinError] is allocated, at [fresh]. *)
Definition errors_Join (fresh : nat) (errs : list (option error))
  : option error :=
  match flat_map (fun e => match e with Some x => [x] | None => [] end) errs with
  | [] => None
  | es => Some (joinError fresh es)
  end.

(** [Unwrap() []error] *)
Definition Unwrap (err : error) : list error :=
  match err with joinError _ es => es | _ => [] end.

(** [errors.Is(err, target)] for non-nil [err] and [target]. *)
Fixpoint errors_Is (err target : error) {struct err} : bool :=
  same_error err target ||
  match err with
  | joinError _ es => existsb (fun e => errors_Is e target) es
  | _ => false
  end.


(** A [context.Context] as [Shutdown] sees it: [None] until it is done, then
    the value of [ctx.Err()]. *)
Definition context : Set := option error.

Definition ctx_Done (ctx : context) : chan :=
  match ctx with None => open_chan | Some _ => closed_chan end.

Definition ctx_Err (ctx : context) : option error := ctx.

(** ** Shutdown *)

(** A [select] over two receive cases. When both can proceed Go picks one at
    random: [pick] is that choice. [None]: no case can proceed, the goroutine
    parks. *)
Definition select2 {A : Type} (pick : bool)
    (c1 : chan) (r1 : A) (c2 : chan) (r2 : A) : option A :=
  match recv_ready c1, recv_ready c2 with
  | true, true => Some (if pick then r1 else r2)
  | true, false => Some r1
  | false, true => Some r2
  | false, false => None
  end.

(** What other goroutines do while [Shutdown] waits. A panic in one of them is
    not seen by the waiting goroutine; the record is left as the panicking call
    left it. *)
Inductive env_event : Set :=
| EnvTryEnter
| EnvExit
| EnvCtxDone (e : error).

Definition env_step (ev : env_event) (ctx : context) (g : Shutdowner)
  : context * Shutdowner :=
  match ev with
  | EnvTryEnter => (ctx, snd (addActiveConnection g))
  | EnvExit => (ctx, snd (removeActiveConnection g))
  | EnvCtxDone e => (match ctx with None => Some e | Some _ => ctx end, g)
  end.

Record shutdown_result : Set := mkResult {
  sd_outcome : outcome (option error);
  sd_waited : nat;            (* events of the environment seen before the end *)
  sd_state : Shutdowner
}.

(** The [select] of [Shutdown]: it returns at the first instant one of its
    cases can proceed; [Blocks] when the environment's events run out first. *)
Fixpoint await (pick : bool) (env : list env_event) (ctx : context)
    (g : Shutdowner) : shutdown_result :=
  match select2 pick (closed g) None (ctx_Done ctx) (ctx_Err ctx) with
  | Some r => mkResult (Returns r) 0 g
  | None =>
      match env with
      | [] => mkResult Blocks 0 g
      | ev :: env' =>
          let (ctx', g') := env_step ev ctx g in
          let res := await pick env' ctx' g' in
          mkResult (sd_outcome res) (S (sd_waited res)) (sd_state res)
      end
  end.

(** [Shutdown], its [select] first evaluated as soon as the mutex is
    released; [ctx] is the context as that first evaluation finds it.
    [Shutdown_window] below has the events of other goroutines that can come
    in between. *)
Definition Shutdown (ctx : context) (pick : bool) (env : list env_event)
    (g : Shutdowner) : shutdown_result :=
  match Shutdown_locked g with
  | (Returns _, g1) => await pick env ctx g1
  | (Panics p, g1) => mkResult (Panics p) 0 g1
  | (Blocks, g1) => mkResult Blocks 0 g1
  end.

(** The events of other goroutines, one after the other, with no [select]
    looking on. *)
Fixpoint env_steps (evs : list env_event) (ctx : context) (g : Shutdowner)
  : context * Shutdowner :=
  match evs with
  | [] => (ctx, g)
  | ev :: evs' =>
      let (ctx', g') := env_step ev ctx g in env_steps evs' ctx' g'
  end.

(** [Shutdown] with the events [window] that other goroutines get in between
    [g.lock.Unlock()] and the first evaluation of the [select]; [Shutdown] is
    the case of an empty window. [sd_waited] counts the events after that
    first evaluation. *)
Definition Shutdown_window (ctx : context) (pick : bool)
    (window env : list env_event) (g : Shutdowner) : shutdown_result :=
  match Shutdown_locked g with
  | (Returns _, g1) =>
      let (ctx', g2) := env_steps window ctx g1 in await pick env ctx' g2
  | (Panics p, g1) => mkResult (Panics p) 0 g1
  | (Blocks, g1) => mkResult Blocks 0 g1
  end.

(** [ShutdownWithServer]. [g.Shutdown(ctx)] runs in a goroutine of its own and
    [server.Shutdown(ctx)] in the caller's: each is started and goes on
    whether or not the other ever ends. [serverShutdown] is what
    [server.Shutdown(ctx)] does. A panic in the goroutine is not recovered and
    ends the program; a panic of [server.Shutdown] leaves the function
    before [wg.Wait()]. [wg.Wait()] returns once the goroutine is done, and
    only then are the two errors joined, in a [joinError] allocated at
    [fresh]. *)
Definition ShutdownWithServer (ctx : context) (pick : bool)
    (env : list env_event) (serverShutdown : outcome (option error))
    (fresh : nat) (g : Shutdowner) : outcome (option error) * Shutdowner :=
  let res := Shutdown ctx pick env g in
  match sd_outcome res, serverShutdown with
  | Panics p, _ => (Panics p, sd_state res)
  | _, Panics p => (Panics p, sd_state res)
  | Returns shutdownerErr, Returns serverErr =>
      (Returns (errors_Join fresh [serverErr; shutdownerErr]), sd_state res)
  | _, _ => (Blocks, sd_state res)
  end.

(** ** Middleware *)

(** [http.ResponseWriter] *)
Class ResponseWriter (W : Type) : Type := {
  WriteHeader : Z -> W -> W
}.

Definition StatusServiceUnavailable : Z := 503.

(** A recording writer: the first [WriteHeader] wins. *)
Record ResponseRecorder : Set := mkRecorder { Code : option Z }.

#[export] Instance ResponseRecorder_writer : ResponseWriter ResponseRecorder := {
  WriteHeader code w :=
    match Code w with Some _ => w | None => mkRecorder (Some code) end
}.

(** What one run of the wrapping handler called, in order. *)
Inductive mw_call : Set :=
| CalledAdd (admitted : bool)
| CalledWriteHeader (code : Z)
| CalledNext
| CalledRemove.

Section Handlers.

Context {W : Type} {RW : ResponseWriter W} {Request : Type}.

(** An [http.Handler]. It runs next to every other user of the Shutdowner, so
    the record it finds and the record it leaves are part of what it does. *)
Definition Handler : Type :=
  W -> Request -> Shutdowner -> outcome unit * W * Shutdowner.

Record served : Type := mkServed {
  sv_outcome : outcome unit;
  sv_writer : W;
  sv_state : Shutdowner;
  sv_calls : list mw_call
}.

(** The function literal of [Middleware]. The deferred
    [removeActiveConnection] runs when [next.ServeHTTP] returns and when it
    panics; a panic of the deferred call replaces the one under way. *)
Definition Middleware_serve (next : Handler) (w : W) (r : Request)
    (g : Shutdowner) : served :=
  match addActiveConnection g with
  | (Returns false, g1) =>
      mkServed (Returns tt) (WriteHeader StatusServiceUnavailable w) g1
        [CalledAdd false; CalledWriteHeader StatusServiceUnavailable]
  | (Returns true, g1) =>
      match next w r g1 with
      | (Blocks, w1, g2) =>
          mkServed Blocks w1 g2 [CalledAdd true; CalledNext]
      | (o, w1, g2) =>
          let (o', g3) := removeActiveConnection g2 in
          mkServed (match o' with Returns _ => o | _ => o' end) w1 g3
            [CalledAdd true; CalledNext; CalledRemove]
      end
  | (Panics p, g1) => mkServed (Panics p) w g1 []
  | (Blocks, g1) => mkServed Blocks w g1 []
  end.

Definition Middleware (next : Handler) : Handler :=
  fun w r g =>
    let s := Middleware_serve next w r g in
    (sv_outcome s, sv_writer s, sv_state s).

End Handlers.

(** ** Sequences of calls under the caller contract *)

Inductive call : Set := CallTryEnter | CallExit | CallShutdown.

(** [inflight] counts the admitted operations that have not called Exit yet;
    the code does not have it, the contract is stated with it. *)
Record config : Set := mkConfig {
  coord : Shutdowner;
  inflight : nat
}.

Inductive run_result : Set :=
| Finished (c : config)
| Crashed (p : panic_value) (c : config)
| Stuck (c : config)
| ContractViolation (c : config).

(** One call. [CallShutdown] is the locked part of [Shutdown]; its [select]
    changes nothing. An Exit with no admitted operation left is not run. *)
Definition step (k : call) (c : config) : run_result :=
  match k with
  | CallTryEnter =>
      match addActiveConnection (coord c) with
      | (Returns true, g) => Finished (mkConfig g (S (inflight c)))
      | (Returns false, g) => Finished (mkConfig g (inflight c))
      | (Panics p, g) => Crashed p (mkConfig g (inflight c))
      | (Blocks, g) => Stuck (mkConfig g (inflight c))
      end
  | CallExit =>
      match inflight c with
      | O => ContractViolation c
      | S n =>
          match removeActiveConnection (coord c) with
          | (Returns _, g) => Finished (mkConfig g n)
          | (Panics p, g) => Crashed p (mkConfig g n)
          | (Blocks, g) => Stuck (mkConfig g n)
          end
      end
  | CallShutdown =>
      match Shutdown_locked (coord c) with
      | (Returns _, g) => Finished (mkConfig g (inflight c))
      | (Panics p, g) => Crashed p (mkConfig g (inflight c))
      | (Blocks, g) => Stuck (mkConfig g (inflight c))
      end
  end.

Fixpoint run (calls : list call) (c : config) : run_result :=
  match calls with
  | [] => Finished c
  | k :: ks =>
      match step k c with
      | Finished c' => run ks c'
      | r => r
      end
  end.

Definition start : config := mkConfig NewShutdowner 0.
Definition zero_start : config := mkConfig zeroShutdowner 0.

Definition config_of (r : run_result) : config :=
  match r with
  | Finished c | Crashed _ c | Stuck c | ContractViolation c => c
  end.

(** The Shutdowner of [NewShutdowner] after the given calls. *)
Definition after_calls (calls : list call) : Shutdowner :=
  coord (config_of (run calls start)).

Definition respects_contract (calls : list call) (c : config) : bool :=
  match run calls c with ContractViolation _ => false | _ => true end.

Definition is_tryenter (k : call) : bool :=
  match k with CallTryEnter => true | _ => false end.
Definition is_exit (k : call) : bool :=
  match k with CallExit => true | _ => false end.
Definition is_shutdown (k : call) : bool :=
  match k with CallShutdown => true | _ => false end.
Definition is_env_exit (ev : env_event) : bool :=
  match ev with EnvExit => true | _ => false end.

Definition no_ctx_done (ev : env_event) : bool :=
  match ev with EnvCtxDone _ => false | _ => true end.

Definition count {A : Type} (f : A -> bool) (l : list A) : nat :=
  List.length (filter f l).

(** The state of the signal that goes with the two other fields: fired exactly
    when shutdown was requested and nothing is in flight. *)
Definition signal_of (g : Shutdowner) : chan :=
  if shutdownRequested g && (activeConnections g =? 0)
  then closed_chan else open_chan.

Definition counted (c : config) : Prop :=
  activeConnections (coord c) = Z.of_nat (inflight c).

Definition consistent (c : config) : Prop :=
  lock (coord c) = false /\
  counted c /\
  closed (coord c) = signal_of (coord c).

(** Shutdown has begun and [n] admitted operations are still in flight. *)
Definition draining (g : Shutdowner) (n : nat) : Prop :=
  lock g = false /\
  shutdownRequested g = true /\
  activeConnections g = Z.of_nat n /\
  closed g = match n with O => closed_chan | S _ => open_chan end.

(** ** Requests served one after the other *)

Section Serving.

Context {W : Type} {RW : ResponseWriter W} {Request : Type}.

(** A handler that returns and does not touch the Shutdowner; [f] is what it
    does with the writer and the request (the benchmark's handler counts its
    calls). *)
Definition plain_handler (f : W -> Request -> W) : @Handler W Request :=
  fun w r g => (Returns tt, f w r, g).

(** [for ... { handler.ServeHTTP(w, req) }]: the loop ends with the first
    call that does not return. *)
Fixpoint serve_all (handler : @Handler W Request) (w : W)
    (reqs : list Request) (g : Shutdowner) : outcome unit * W * Shutdowner :=
  match reqs with
  | [] => (Returns tt, w, g)
  | r :: rs =>
      match handler w r g with
      | (Returns _, w', g') => serve_all handler w' rs g'
      | stopped => stopped
      end
  end.

End Serving.

(** * Properties *)

(** ** Arithmetic of [int] *)

Ltac unfold_int :=
  unfold in_range, incr, decr, wrap, minInt, maxInt, intSize in *;
  change (2 ^ (64 - 1)) with 9223372036854775808 in *;
  change (2 ^ 64) with 18446744073709551616 in *.

Lemma wrap_in_range z : in_range z -> wrap z = z.
Proof. unfold_int. intros H. rewrite Z.mod_small; lia. Qed.

Lemma wrap_range z : in_range (wrap z).
Proof.
  unfold_int.
  pose proof (Z.mod_pos_bound (z + 9223372036854775808) 18446744073709551616).
  lia.
Qed.

Lemma incr_small x : minInt <= x < maxInt -> incr x = x + 1.
Proof. intros H. apply wrap_in_range. unfold_int. lia. Qed.

Lemma decr_small x : minInt < x <= maxInt -> decr x = x - 1.
Proof. intros H. apply wrap_in_range. unfold_int. lia. Qed.

(** At the top of the range [x++] wraps to the bottom. *)
Lemma incr_maxInt : incr maxInt = minInt.
Proof. reflexivity. Qed.

(** ** The mutex *)

Lemma Lock_free g : lock g = false -> Lock g = Some (set_lock true g).
Proof. unfold Lock. intros ->. reflexivity. Qed.

Lemma Lock_held g : lock g = true -> Lock g = None.
Proof. unfold Lock. intros ->. reflexivity. Qed.

(** A call that finds the mutex held does not get past [Lock]. *)
Lemma held_blocks g :
  lock g = true ->
  addActiveConnection g = (Blocks, g) /\
  removeActiveConnection g = (Blocks, g) /\
  Shutdown_locked g = (Blocks, g).
Proof.
  intros H. unfold addActiveConnection, removeActiveConnection, Shutdown_locked.
  rewrite (Lock_held g H). auto.
Qed.

(** ** TryEnter *)

(** C1. With the mutex free: when [shutdownRequested] is set,
    [addActiveConnection] returns false and leaves the whole record as it
    was; when it is not set, the call returns true and the only change is
    [activeConnections] going up by exactly one (the counter being an [int]
    below its largest value, where [++] does not wrap). *)
Theorem addActiveConnection_admits_or_rejects (g : Shutdowner) :
  lock g = false ->
  (shutdownRequested g = true ->
   addActiveConnection g = (Returns false, g)) /\
  (shutdownRequested g = false ->
   minInt <= activeConnections g < maxInt ->
   addActiveConnection g =
     (Returns true, set_activeConnections (activeConnections g + 1) g)).
Proof.
  intros Hl. unfold addActiveConnection. rewrite (Lock_free g Hl).
  destruct g as [l c r a]; simpl in *; subst l. split.
  - intros ->. reflexivity.
  - intros -> Ha. rewrite (incr_small a Ha). reflexivity.
Qed.

Lemma addActiveConnection_admits_or_rejects_witness :
  addActiveConnection (mkShutdowner false open_chan true 2)
    = (Returns false, mkShutdowner false open_chan true 2) /\
  addActiveConnection (mkShutdowner false open_chan false 2)
    = (Returns true, mkShutdowner false open_chan false 3).
Proof.
  split.
  - apply (addActiveConnection_admits_or_rejects
             (mkShutdowner false open_chan true 2)); reflexivity.
  - apply (addActiveConnection_admits_or_rejects
             (mkShutdowner false open_chan false 2));
      [reflexivity | reflexivity | split; [discriminate | reflexivity]].
Defined.

(** At the largest [int] the increment wraps: the counter of a Shutdowner
    with [maxInt] operations in flight would turn negative. *)
Remark addActiveConnection_wraps_at_maxInt :
  addActiveConnection (mkShutdowner false open_chan false maxInt)
    = (Returns true, mkShutdowner false open_chan false minInt).
Proof. reflexivity. Qed.

(** ** The three locked sections, with the mutex free *)

Lemma addActiveConnection_free l c rq a :
  l = false ->
  minInt <= a < maxInt ->
  addActiveConnection (mkShutdowner l c rq a) =
    if rq then (Returns false, mkShutdowner false c rq a)
    else (Returns true, mkShutdowner false c rq (a + 1)).
Proof.
  intros -> Ha. unfold addActiveConnection, Lock; cbn.
  rewrite (incr_small a Ha). destruct rq; reflexivity.
Qed.

Lemma addActiveConnection_requested c a :
  addActiveConnection (mkShutdowner false c true a)
    = (Returns false, mkShutdowner false c true a).
Proof. reflexivity. Qed.

Lemma removeActiveConnection_free l c rq a :
  l = false ->
  minInt < a <= maxInt ->
  removeActiveConnection (mkShutdowner l c rq a) =
    if rq && (a - 1 =? 0) then
      match close c with
      | inr c' => (Returns tt, mkShutdowner false c' rq (a - 1))
      | inl p => (Panics p, mkShutdowner false c rq (a - 1))
      end
    else (Returns tt, mkShutdowner false c rq (a - 1)).
Proof.
  intros -> Ha. unfold removeActiveConnection, Lock; cbn.
  rewrite (decr_small a Ha).
  destruct (rq && (a - 1 =? 0)); [destruct (close c)|]; reflexivity.
Qed.

Lemma Shutdown_locked_free l c rq a :
  l = false ->
  Shutdown_locked (mkShutdowner l c rq a) =
    if a =? 0 then
      match close c with
      | inr c' => (Returns tt, mkShutdowner false c' true a)
      | inl p => (Panics p, mkShutdowner true c true a)
      end
    else (Returns tt, mkShutdowner false c true a).
Proof.
  intros ->. unfold Shutdown_locked, Lock; cbn.
  destruct (a =? 0); [destruct (close c)|]; reflexivity.
Qed.

(** ** Sequences of calls from [NewShutdowner] *)

Lemma start_consistent : consistent start.
Proof. repeat split. Qed.

Lemma step_consistent k c :
  consistent c ->
  Z.of_nat (inflight c) < maxInt ->
  match step k c with
  | Finished c' => consistent c' /\ (inflight c' <= S (inflight c))%nat
  | Crashed p c' =>
      counted c' /\ k = CallShutdown /\ p = close_of_closed_channel /\
      (inflight c' <= inflight c)%nat
  | Stuck _ => False
  | ContractViolation c' => c' = c /\ k = CallExit /\ inflight c = 0%nat
  end.
Proof.
  destruct c as [[l ch rq a] n]. unfold consistent, counted, signal_of.
  cbn [coord inflight lock closed shutdownRequested activeConnections].
  intros (-> & -> & ->) Hn.
  destruct k; unfold step;
    cbn [coord inflight lock closed shutdownRequested activeConnections].
  - (* TryEnter *)
    rewrite addActiveConnection_free by (unfold_int; lia).
    destruct rq;
      cbn [coord inflight lock closed shutdownRequested activeConnections andb].
    + repeat split; auto.
    + repeat split; auto; lia.
  - (* Exit *)
    destruct n as [|n]; [auto|].
    rewrite removeActiveConnection_free by (unfold_int; lia).
    replace (Z.of_nat (S n) - 1) with (Z.of_nat n) by lia.
    replace (Z.of_nat (S n) =? 0) with false
      by (symmetry; apply Z.eqb_neq; lia).
    rewrite andb_false_r.
    destruct (rq && (Z.of_nat n =? 0)) eqn:E;
      cbn [close coord inflight lock closed shutdownRequested activeConnections];
      rewrite ?E; repeat split; auto.
  - (* Shutdown *)
    rewrite Shutdown_locked_free by reflexivity.
    destruct (Z.of_nat n =? 0) eqn:E.
    + rewrite andb_true_r.
      destruct rq;
        cbn [close coord inflight lock closed shutdownRequested
             activeConnections andb];
        rewrite ?E; repeat split; auto.
    + rewrite andb_false_r.
      cbn [close coord inflight lock closed shutdownRequested
           activeConnections andb];
        rewrite ?E; repeat split; auto.
Qed.

Lemma run_consistent calls : forall c,
  consistent c ->
  Z.of_nat (inflight c) + Z.of_nat (List.length calls) <= maxInt ->
  counted (config_of (run calls c)) /\
  (forall c', run calls c = Finished c' -> consistent c') /\
  (forall c', run calls c <> Stuck c') /\
  (inflight (config_of (run calls c)) <= inflight c + List.length calls)%nat.
Proof.
  induction calls as [|k ks IH]; intros c Hc Hlen.
  - cbn [run config_of]. split; [apply Hc|]. split; [|split].
    + intros c' [= <-]. exact Hc.
    + congruence.
    + lia.
  - cbn [List.length] in Hlen. cbn [run].
    pose proof (step_consistent k c Hc ltac:(lia)) as Hs.
    destruct (step k c) as [c1|p c1|c1|c1].
    + destruct Hs as [Hc1 Hn1].
      destruct (IH c1 Hc1 ltac:(lia)) as (A & B & C & D).
      split; [exact A|]. split; [exact B|]. split; [exact C|].
      cbn [List.length]. lia.
    + destruct Hs as (Hcnt & _ & _ & Hn). cbn [config_of].
      split; [exact Hcnt|]. split; [congruence|]. split; [congruence|]. lia.
    + contradiction.
    + destruct Hs as (-> & _ & _). cbn [config_of].
      split; [apply Hc|]. split; [congruence|]. split; [congruence|]. lia.
Qed.

Lemma reachable_consistent calls c :
  Z.of_nat (List.length calls) <= maxInt ->
  run calls start = Finished c ->
  consistent c /\ Z.of_nat (inflight c) <= maxInt.
Proof.
  intros Hlen Hrun.
  destruct (run_consistent calls start start_consistent) as (_ & B & _ & D).
  - cbn [start inflight]. lia.
  - rewrite Hrun in D. cbn [config_of start inflight] in D.
    split; [apply B; exact Hrun | lia].
Qed.

(** ** Exit *)

(** C2. In every state reached from [NewShutdowner] by calls that respect the
    caller contract, with an admitted operation still in flight,
    [removeActiveConnection] returns, takes exactly one off
    [activeConnections] and changes nothing else but the signal: the channel
    was open before the call and is closed after it exactly when
    [shutdownRequested] is set and the new count is 0; in every other case it
    stays open. *)
Theorem removeActiveConnection_fires_at_zero (calls : list call) (c : config) :
  Z.of_nat (List.length calls) <= maxInt ->
  run calls start = Finished c ->
  (0 < inflight c)%nat ->
  exists g',
    removeActiveConnection (coord c) = (Returns tt, g') /\
    activeConnections g' = activeConnections (coord c) - 1 /\
    shutdownRequested g' = shutdownRequested (coord c) /\
    lock g' = false /\
    closed (coord c) = open_chan /\
    closed g' =
      (if shutdownRequested (coord c) && (activeConnections g' =? 0)
       then closed_chan else open_chan).
Proof.
  intros Hlen Hrun Hpos.
  destruct (reachable_consistent calls c Hlen Hrun) as [(Hl & Hcnt & Hch) Hmax].
  destruct c as [[l ch rq a] n]. unfold counted, signal_of in *.
  cbn [coord inflight lock closed shutdownRequested activeConnections] in *.
  subst l a.
  assert (Hz : (Z.of_nat n =? 0) = false) by (apply Z.eqb_neq; lia).
  rewrite Hz, andb_false_r in Hch. subst ch.
  rewrite removeActiveConnection_free by (unfold_int; lia).
  destruct (rq && (Z.of_nat n - 1 =? 0)) eqn:E; cbn [close].
  - eexists; split; [reflexivity|].
    cbn [lock closed shutdownRequested activeConnections].
    rewrite E. auto.
  - eexists; split; [reflexivity|].
    cbn [lock closed shutdownRequested activeConnections].
    rewrite E. auto.
Qed.

Lemma removeActiveConnection_fires_at_zero_witness :
  exists g',
    removeActiveConnection (mkShutdowner false open_chan true 1)
      = (Returns tt, g') /\
    activeConnections g' = 1 - 1 /\
    shutdownRequested g' = true /\
    lock g' = false /\
    open_chan = open_chan /\
    closed g' = (if true && (activeConnections g' =? 0)
                 then closed_chan else open_chan).
Proof.
  apply (removeActiveConnection_fires_at_zero
           [CallTryEnter; CallTryEnter; CallShutdown; CallExit]
           (mkConfig (mkShutdowner false open_chan true 1) 1)).
  - vm_compute. discriminate.
  - reflexivity.
  - apply le_n.
Defined.

(** ** The counter *)

Lemma run_app pre suf c :
  run (pre ++ suf) c =
    match run pre c with
    | Finished c' => run suf c'
    | r => r
    end.
Proof.
  revert c. induction pre as [|k ks IH]; intros c; cbn [run app];
    [reflexivity|].
  destruct (step k c); auto.
Qed.

(** A sequence that respects the contract does so on each of its prefixes. *)
Lemma respects_contract_prefix calls k c :
  respects_contract calls c = true ->
  respects_contract (firstn k calls) c = true.
Proof.
  unfold respects_contract.
  rewrite <- (firstn_skipn k calls) at 1. rewrite run_app.
  destruct (run (firstn k calls) c); auto.
Qed.

(** C7. Take any sequence of TryEnter, Exit and Shutdown calls on a
    Shutdowner made by [NewShutdowner] in which every Exit is matched by an
    earlier admitted TryEnter. Every prefix of it respects the contract too,
    and after it [activeConnections] is the number of admitted operations
    that have not exited yet: it is never negative, and it is 0 whenever
    every admitted TryEnter of the prefix has had its Exit. (The sequence is
    shorter than the largest [int].) *)
Theorem activeConnections_counts_inflight (calls : list call) (k : nat) :
  Z.of_nat (List.length calls) <= maxInt ->
  respects_contract calls start = true ->
  let c := config_of (run (firstn k calls) start) in
  respects_contract (firstn k calls) start = true /\
  0 <= activeConnections (coord c) /\
  activeConnections (coord c) = Z.of_nat (inflight c) /\
  (inflight c = 0%nat -> activeConnections (coord c) = 0).
Proof.
  intros Hlen Hok c.
  split; [apply respects_contract_prefix; exact Hok|].
  destruct (run_consistent (firstn k calls) start start_consistent)
    as (A & _ & _ & _).
  - rewrite length_firstn. cbn [start inflight]. lia.
  - unfold counted in A. fold c in A. rewrite A.
    split; [lia|]. split; [reflexivity|]. intros ->. reflexivity.
Qed.

Lemma activeConnections_counts_inflight_witness :
  let c := config_of
             (run (firstn 5 [CallTryEnter; CallTryEnter; CallExit;
                             CallShutdown; CallExit; CallTryEnter]) start) in
  respects_contract
    (firstn 5 [CallTryEnter; CallTryEnter; CallExit;
               CallShutdown; CallExit; CallTryEnter]) start = true /\
  0 <= activeConnections (coord c) /\
  activeConnections (coord c) = Z.of_nat (inflight c) /\
  (inflight c = 0%nat -> activeConnections (coord c) = 0).
Proof.
  apply (activeConnections_counts_inflight
           [CallTryEnter; CallTryEnter; CallExit;
            CallShutdown; CallExit; CallTryEnter] 5).
  - vm_compute. discriminate.
  - reflexivity.
Defined.

(** ** Waiting for the signal *)

(** The first case of the [select] is taken only on a closed channel. *)
Lemma await_nil_closed pick env : forall ctx g,
  sd_outcome (await pick env ctx g) = Returns None ->
  closed (sd_state (await pick env ctx g)) = closed_chan.
Proof.
  induction env as [|ev env IH]; intros ctx g; cbn [await];
    unfold select2, ctx_Done, ctx_Err;
    destruct (closed g) eqn:Ec, ctx as [e|]; cbn [recv_ready sd_outcome sd_state];
    try discriminate; try (intros _; exact Ec);
    try (destruct pick; discriminate).
  all: destruct (env_step ev _ g) as [ctx' g'];
    cbn [sd_outcome sd_state]; apply IH.
Qed.

Lemma env_step_draining ev ctx g n :
  draining g n ->
  Z.of_nat n <= maxInt ->
  (count is_env_exit [ev] <= n)%nat ->
  exists ctx', env_step ev ctx g = (ctx', snd (env_step ev ctx g)) /\
    draining (snd (env_step ev ctx g)) (n - count is_env_exit [ev]).
Proof.
  destruct g as [l c rq a]. unfold draining.
  cbn [lock closed shutdownRequested activeConnections].
  intros (-> & -> & -> & ->) Hmax Hev.
  destruct ev; unfold env_step, count; cbn [is_env_exit filter List.length snd].
  - rewrite addActiveConnection_requested. cbn [snd].
    eexists; split; [reflexivity|]. rewrite Nat.sub_0_r. auto.
  - unfold count in Hev. cbn in Hev. destruct n as [|n]; [lia|].
    rewrite removeActiveConnection_free by (unfold_int; lia).
    replace (Z.of_nat (S n) - 1) with (Z.of_nat n) by lia.
    replace (S n - 1)%nat with n by lia.
    eexists; split; [reflexivity|].
    destruct n as [|n]; cbn [andb Z.of_nat Z.eqb close snd
                             lock closed shutdownRequested activeConnections];
      auto.
  - eexists; split; [reflexivity|]. rewrite Nat.sub_0_r. auto.
Qed.

(** While [n] operations are in flight and at most [n] Exits are still to
    come, the wait ends with nil only once all [n] Exits have been seen. *)
Lemma await_nil_after_exits pick env : forall ctx g n,
  draining g n ->
  Z.of_nat n <= maxInt ->
  (count is_env_exit env <= n)%nat ->
  sd_outcome (await pick env ctx g) = Returns None ->
  count is_env_exit (firstn (sd_waited (await pick env ctx g)) env) = n.
Proof.
  induction env as [|ev env IH]; intros ctx g n Hd Hmax Hc.
  - cbn [await]. destruct Hd as (_ & _ & _ & Hch).
    unfold select2, ctx_Done, ctx_Err. rewrite Hch.
    destruct n, ctx; cbn [recv_ready sd_outcome sd_waited firstn];
      try discriminate; try reflexivity.
  - cbn [await]. pose proof Hd as (_ & _ & _ & Hch).
    unfold select2, ctx_Done, ctx_Err. rewrite Hch.
    destruct n as [|n].
    + destruct ctx; cbn [recv_ready sd_outcome sd_waited firstn]; reflexivity.
    + assert (Hev : (count is_env_exit [ev] <= S n)%nat).
      { unfold count in *. cbn [filter] in *.
        destruct (is_env_exit ev); cbn [List.length] in *; lia. }
      destruct ctx as [e|]; cbn [recv_ready]; [discriminate|].
      destruct (env_step_draining ev None g (S n) Hd Hmax Hev) as (ctx' & E & Hd').
      rewrite E. cbn [sd_outcome sd_waited firstn]. intros Hout.
      assert (Hsplit : forall l, count is_env_exit (ev :: l)
                = (count is_env_exit [ev] + count is_env_exit l)%nat).
      { intros l. unfold count. cbn [filter].
        destruct (is_env_exit ev); reflexivity. }
      rewrite Hsplit in Hc |- *.
      rewrite (IH ctx' _ (S n - count is_env_exit [ev])%nat Hd'); try lia.
      exact Hout.
Qed.

(** ** Before shutdown is requested *)

Lemma count_cons {A} (f : A -> bool) x l :
  count f (x :: l) = ((if f x then 1 else 0) + count f l)%nat.
Proof. unfold count. cbn [filter]. destruct (f x); reflexivity. Qed.

Lemma step_before_shutdown k c c' :
  consistent c ->
  shutdownRequested (coord c) = false ->
  Z.of_nat (inflight c) < maxInt ->
  is_shutdown k = false ->
  step k c = Finished c' ->
  shutdownRequested (coord c') = false /\
  (inflight c' + (if is_exit k then 1 else 0)
   = inflight c + (if is_tryenter k then 1 else 0))%nat.
Proof.
  destruct c as [[l ch rq a] n]. unfold consistent, counted.
  cbn [coord inflight lock closed shutdownRequested activeConnections].
  intros (-> & -> & _) -> Hn Hk.
  destruct k; try discriminate; unfold step;
    cbn [coord inflight is_exit is_tryenter].
  - rewrite addActiveConnection_free by (unfold_int; lia).
    intros [= <-]. cbn [coord inflight shutdownRequested]. split; [reflexivity|lia].
  - destruct n as [|n]; [discriminate|].
    rewrite removeActiveConnection_free by (unfold_int; lia).
    cbn [andb]. intros [= <-].
    cbn [coord inflight shutdownRequested]. split; [reflexivity|lia].
Qed.

(** Without a Shutdown among them every TryEnter is admitted: the operations
    in flight are the TryEnters less the Exits. *)
Lemma run_before_shutdown pre : forall c0 c,
  consistent c0 ->
  shutdownRequested (coord c0) = false ->
  Z.of_nat (inflight c0) + Z.of_nat (List.length pre) <= maxInt ->
  count is_shutdown pre = 0%nat ->
  run pre c0 = Finished c ->
  shutdownRequested (coord c) = false /\
  (inflight c + count is_exit pre = inflight c0 + count is_tryenter pre)%nat.
Proof.
  induction pre as [|k ks IH]; intros c0 c Hc Hrq Hlen Hno; cbn [run].
  - intros [= <-]. unfold count. cbn. split; [exact Hrq|lia].
  - cbn [List.length] in Hlen. rewrite count_cons in Hno.
    destruct (is_shutdown k) eqn:Hk; [discriminate|].
    pose proof (step_consistent k c0 Hc ltac:(lia)) as Hs.
    destruct (step k c0) as [c1| | |] eqn:Est; try discriminate.
    destruct Hs as [Hc1 Hn1].
    destruct (step_before_shutdown k c0 c1 Hc Hrq ltac:(lia) Hk Est) as [Hrq1 Hcnt].
    intros Hrun.
    destruct (IH c1 c Hc1 Hrq1 ltac:(lia) Hno Hrun) as [Hrq' Hcnt'].
    split; [exact Hrq'|]. rewrite !count_cons. lia.
Qed.

(** ** Shutdown *)

(** The locked part of Shutdown, called with [n] operations in flight and
    the signal in step with the counter, starts the drain. *)
Lemma Shutdown_locked_starts_draining c :
  consistent c ->
  shutdownRequested (coord c) = false ->
  exists g1, Shutdown_locked (coord c) = (Returns tt, g1) /\
             draining g1 (inflight c).
Proof.
  destruct c as [[l ch rq a] n]. unfold consistent, counted, signal_of, draining.
  cbn [coord inflight lock closed shutdownRequested activeConnections].
  intros (-> & -> & ->) ->. cbn [andb].
  rewrite Shutdown_locked_free by reflexivity.
  destruct n as [|n].
  - cbn. eexists; split; [reflexivity|]. cbn. auto.
  - replace (Z.of_nat (S n) =? 0) with false
      by (symmetry; apply Z.eqb_neq; lia).
    eexists; split; [reflexivity|].
    cbn [lock closed shutdownRequested activeConnections]. auto.
Qed.

(** C3. Let [N] calls of TryEnter be made before shutdown is requested (they
    are all admitted), interleaved in any way with Exits of admitted
    operations, and let Shutdown be called then, other goroutines going on
    with TryEnter and Exit calls and the context being cancelled at any
    point. If Shutdown returns nil, then the Exits made before it and the
    Exits made while it waited are exactly [N]: it does not return success
    before the last matching Exit. *)
Theorem Shutdown_returns_nil_after_all_exits
    (pre : list call) (c : config) (N : nat)
    (ctx : context) (pick : bool) (env : list env_event) :
  Z.of_nat (List.length pre) <= maxInt ->
  count is_shutdown pre = 0%nat ->
  count is_tryenter pre = N ->
  run pre start = Finished c ->
  (count is_exit pre + count is_env_exit env <= N)%nat ->
  sd_outcome (Shutdown ctx pick env (coord c)) = Returns None ->
  (inflight c + count is_exit pre = N)%nat /\
  (count is_exit pre
   + count is_env_exit
       (firstn (sd_waited (Shutdown ctx pick env (coord c))) env) = N)%nat /\
  closed (sd_state (Shutdown ctx pick env (coord c))) = closed_chan.
Proof.
  intros Hlen Hno HN Hrun Hcontract.
  destruct (reachable_consistent pre c Hlen Hrun) as [Hc Hmax].
  destruct (run_before_shutdown pre start c start_consistent eq_refl
              ltac:(cbn [start inflight]; lia) Hno Hrun) as [Hrq Hcnt].
  cbn [start inflight] in Hcnt. rewrite HN in Hcnt. cbn [Nat.add] in Hcnt.
  destruct (Shutdown_locked_starts_draining c Hc Hrq) as (g1 & E & Hd).
  unfold Shutdown. rewrite E. intros Hout.
  split; [exact Hcnt|]. split.
  - rewrite (await_nil_after_exits pick env ctx g1 (inflight c) Hd Hmax);
      [lia | lia | exact Hout].
  - apply await_nil_closed. exact Hout.
Qed.

Lemma Shutdown_returns_nil_after_all_exits_witness :
  let pre := [CallTryEnter; CallTryEnter; CallExit; CallTryEnter] in
  let env := [EnvExit; EnvTryEnter; EnvExit; EnvCtxDone DeadlineExceeded] in
  let g := mkShutdowner false open_chan false 2 in
  (inflight (mkConfig g 2) + count is_exit pre = 3)%nat /\
  (count is_exit pre
   + count is_env_exit (firstn (sd_waited (Shutdown None true env g)) env)
   = 3)%nat /\
  closed (sd_state (Shutdown None true env g)) = closed_chan.
Proof.
  apply (Shutdown_returns_nil_after_all_exits
           [CallTryEnter; CallTryEnter; CallExit; CallTryEnter]
           (mkConfig (mkShutdowner false open_chan false 2) 2) 3 None true
           [EnvExit; EnvTryEnter; EnvExit; EnvCtxDone DeadlineExceeded]).
  - vm_compute. discriminate.
  - reflexivity.
  - reflexivity.
  - reflexivity.
  - vm_compute. apply le_n.
  - reflexivity.
Defined.

(** The wait does end with nil: when the context stays live and the
    remaining Exits all come, [await] returns nil. *)
Lemma await_returns_nil pick env : forall g n,
  draining g n ->
  Z.of_nat n <= maxInt ->
  forallb no_ctx_done env = true ->
  (n <= count is_env_exit env)%nat ->
  sd_outcome (await pick env None g) = Returns None.
Proof.
  induction env as [|ev env IH]; intros g n Hd Hmax Hlive Hn.
  - unfold count in Hn. cbn in Hn. assert (n = 0%nat) as -> by lia.
    destruct Hd as (_ & _ & _ & Hch). cbn [await]. unfold select2.
    rewrite Hch. reflexivity.
  - pose proof Hd as (_ & _ & _ & Hch). cbn [await]. unfold select2.
    rewrite Hch. destruct n as [|n]; [reflexivity|].
    cbn [recv_ready ctx_Done].
    assert (Hev : (count is_env_exit [ev] <= S n)%nat).
    { rewrite count_cons. unfold count. cbn.
      destruct (is_env_exit ev); lia. }
    destruct (env_step_draining ev None g (S n) Hd Hmax Hev) as (ctx' & E & Hd').
    cbn [forallb] in Hlive. apply andb_prop in Hlive as [Hev' Hlive].
    assert (ctx' = None) as ->.
    { destruct ev; try discriminate; cbn in E; congruence. }
    rewrite E. cbn [sd_outcome].
    rewrite count_cons in Hn. rewrite count_cons in Hd'.
    replace (count is_env_exit []) with 0%nat in Hd' by reflexivity.
    apply (IH _ _ Hd'); [lia | exact Hlive | ].
    destruct (is_env_exit ev); lia.
Qed.

(** C6. Called on a Shutdowner whose counter is 0 and whose signal has not
    fired (the channel of [NewShutdowner], still open), with a context that
    is not done, Shutdown closes the channel in its locked part and its
    [select] returns nil at once: none of the environment's events is waited
    for, whatever the random choice of the [select]. *)
Theorem Shutdown_idle_returns_at_once
    (g : Shutdowner) (pick : bool) (env : list env_event) :
  lock g = false ->
  closed g = open_chan ->
  activeConnections g = 0 ->
  Shutdown None pick env g
    = mkResult (Returns None) 0 (mkShutdowner false closed_chan true 0).
Proof.
  destruct g as [l c rq a].
  cbn [lock closed shutdownRequested activeConnections].
  intros -> -> ->. unfold Shutdown.
  rewrite Shutdown_locked_free by reflexivity. cbn [Z.eqb close].
  destruct env; reflexivity.
Qed.

Lemma Shutdown_idle_returns_at_once_witness :
  Shutdown None false [EnvTryEnter; EnvCtxDone DeadlineExceeded] NewShutdowner
    = mkResult (Returns None) 0 (mkShutdowner false closed_chan true 0).
Proof.
  apply (Shutdown_idle_returns_at_once NewShutdowner false
           [EnvTryEnter; EnvCtxDone DeadlineExceeded]); reflexivity.
Defined.

(** With a context that is already done both cases of the [select] can
    proceed and either may be taken. *)
Lemma Shutdown_idle_expired_context e pick env :
  sd_outcome (Shutdown (Some e) pick env NewShutdowner)
    = Returns (if pick then None else Some e).
Proof. destruct env, pick; reflexivity. Qed.

(** The runs of the test table, on a Shutdowner made by [NewShutdowner]. *)

(** One handler still runs when the deadline passes. *)
Example deadline_before_exit pick :
  sd_outcome (Shutdown None pick [EnvCtxDone DeadlineExceeded; EnvExit]
                (after_calls [CallTryEnter]))
    = Returns (Some DeadlineExceeded).
Proof. reflexivity. Qed.

(** The handler returns before the deadline. *)
Example exit_before_deadline pick :
  sd_outcome (Shutdown None pick [EnvExit; EnvCtxDone DeadlineExceeded]
                (after_calls [CallTryEnter]))
    = Returns None.
Proof. reflexivity. Qed.

(** Three handlers, one of them outlives the deadline. *)
Example deadline_before_last_exit pick :
  sd_outcome (Shutdown None pick
                [EnvExit; EnvExit; EnvCtxDone DeadlineExceeded; EnvExit]
                (after_calls [CallTryEnter; CallTryEnter; CallTryEnter]))
    = Returns (Some DeadlineExceeded).
Proof. reflexivity. Qed.

(** The handlers have returned when Shutdown is called. *)
Example shutdown_after_handlers pick env :
  Shutdown None pick env
      (after_calls [CallTryEnter; CallTryEnter; CallExit; CallExit])
    = mkResult (Returns None) 0 (mkShutdowner false closed_chan true 0).
Proof. destruct env; reflexivity. Qed.

(** A request that comes while Shutdown waits is turned away and does not
    hold the wait up. *)
Example late_request_rejected pick :
  Shutdown None pick [EnvTryEnter; EnvExit] (after_calls [CallTryEnter])
    = mkResult (Returns None) 2 (mkShutdowner false closed_chan true 0).
Proof. reflexivity. Qed.

(** *** Shutdown called again *)

(** C4. The second Shutdown on a Shutdowner that has reached quiescence.
    The first call on a fresh Shutdowner returns nil and leaves the channel
    closed; the second call sets [shutdownRequested] again, finds the counter
    at 0 and closes the closed channel: it panics, with the mutex still
    held, whatever its context. *)
Theorem Shutdown_twice_panics
    (ctx : context) (pick : bool) (env : list env_event) :
  let first := Shutdown None true [] NewShutdowner in
  sd_outcome first = Returns None /\
  sd_state first = mkShutdowner false closed_chan true 0 /\
  Shutdown ctx pick env (sd_state first)
    = mkResult (Panics close_of_closed_channel) 0
        (mkShutdowner true closed_chan true 0).
Proof. repeat split. Qed.

(** A second Shutdown while an admitted operation is still in flight closes
    nothing and waits like the first. *)
Lemma Shutdown_again_while_in_flight g n ctx pick env :
  draining g (S n) ->
  Shutdown ctx pick env g = await pick env ctx g.
Proof.
  destruct g as [l c rq a]. unfold draining.
  cbn [lock closed shutdownRequested activeConnections].
  intros (-> & -> & -> & ->). unfold Shutdown.
  rewrite Shutdown_locked_free by reflexivity.
  replace (Z.of_nat (S n) =? 0) with false by (symmetry; apply Z.eqb_neq; lia).
  reflexivity.
Qed.

(** C5. Waiting again after a deadline. One operation is admitted; the
    first Shutdown gives up with [DeadlineExceeded] and leaves the channel
    open (the signal is not consumed). When the second Shutdown is called
    while the operation is still in flight and the Exit comes during the
    wait, it returns nil. When the Exit comes between the two calls, it
    closes the channel, and the second Shutdown closes it again: it panics
    instead of returning nil. *)
Theorem Shutdown_after_deadline_and_exit_panics
    (ctx : context) (pick : bool) (env : list env_event) :
  let admitted := addActiveConnection NewShutdowner in
  let first := Shutdown None pick [EnvCtxDone DeadlineExceeded] (snd admitted) in
  let exited := removeActiveConnection (sd_state first) in
  fst admitted = Returns true /\
  sd_outcome first = Returns (Some DeadlineExceeded) /\
  closed (sd_state first) = open_chan /\
  sd_outcome (Shutdown None pick [EnvExit] (sd_state first)) = Returns None /\
  exited = (Returns tt, mkShutdowner false closed_chan true 0) /\
  Shutdown ctx pick env (snd exited)
    = mkResult (Panics close_of_closed_channel) 0
        (mkShutdowner true closed_chan true 0).
Proof. destruct pick; repeat split. Qed.

(** Every Shutdown called once quiescence has been reached ends that way. *)
Lemma Shutdown_after_quiescence_panics g ctx pick env :
  draining g 0 ->
  Shutdown ctx pick env g
    = mkResult (Panics close_of_closed_channel) 0
        (mkShutdowner true closed_chan true 0).
Proof.
  destruct g as [l c rq a]. unfold draining.
  cbn [lock closed shutdownRequested activeConnections].
  intros (-> & -> & -> & ->). reflexivity.
Qed.

(** ** The zero value *)

(** No call makes the channel: one that is nil stays nil. *)
Lemma nil_channel_stays_nil g :
  closed g = nil_chan ->
  closed (snd (addActiveConnection g)) = nil_chan /\
  closed (snd (removeActiveConnection g)) = nil_chan /\
  closed (snd (Shutdown_locked g)) = nil_chan.
Proof.
  destruct g as [l c rq a]. cbn [closed]. intros ->.
  unfold addActiveConnection, removeActiveConnection, Shutdown_locked, Lock.
  cbn -[decr incr Z.eqb].
  destruct l; cbn -[decr incr Z.eqb]; [auto|].
  split; [destruct rq; reflexivity|].
  split.
  - destruct (rq && (decr a =? 0)); reflexivity.
  - destruct (a =? 0); reflexivity.
Qed.

Lemma step_nil_channel k c :
  closed (coord c) = nil_chan ->
  closed (coord (config_of (step k c))) = nil_chan.
Proof.
  intros H. destruct (nil_channel_stays_nil (coord c) H) as (A & B & C).
  destruct k; unfold step.
  - destruct (addActiveConnection (coord c)) as [[[]| |] g]; exact A.
  - destruct (inflight c); [exact H|].
    destruct (removeActiveConnection (coord c)) as [[| |] g]; exact B.
  - destruct (Shutdown_locked (coord c)) as [[| |] g]; exact C.
Qed.

Lemma run_nil_channel calls : forall c,
  closed (coord c) = nil_chan ->
  closed (coord (config_of (run calls c))) = nil_chan.
Proof.
  induction calls as [|k ks IH]; intros c H; cbn [run]; [exact H|].
  pose proof (step_nil_channel k c H) as Hs.
  destruct (step k c); cbn [config_of] in *; auto.
Qed.

(** C10. The zero value of [Shutdowner] has a nil channel, [NewShutdowner]
    an open one, and no call on the zero value ever makes the channel. So on
    a Shutdowner with a nil channel the first event that has to fire the
    signal panics with a close of a nil channel: Shutdown called while the
    counter is 0, and the Exit that brings the counter to 0 after shutdown
    was requested. With the open channel of [NewShutdowner] both firing
    branches close it and return. *)
Theorem zero_value_panics_when_signal_fires :
  closed zeroShutdowner = nil_chan /\
  closed NewShutdowner = open_chan /\
  (forall calls,
     closed (coord (config_of (run calls zero_start))) = nil_chan) /\
  (forall g ctx pick env,
     lock g = false -> closed g = nil_chan -> activeConnections g = 0 ->
     sd_outcome (Shutdown ctx pick env g) = Panics close_of_nil_channel) /\
  (forall g,
     lock g = false -> closed g = nil_chan ->
     shutdownRequested g = true -> activeConnections g = 1 ->
     fst (removeActiveConnection g) = Panics close_of_nil_channel) /\
  (forall g,
     lock g = false -> closed g = open_chan -> activeConnections g = 0 ->
     Shutdown_locked g = (Returns tt, mkShutdowner false closed_chan true 0)) /\
  (forall g,
     lock g = false -> closed g = open_chan ->
     shutdownRequested g = true -> activeConnections g = 1 ->
     removeActiveConnection g
       = (Returns tt, mkShutdowner false closed_chan true 0)).
Proof.
  split; [reflexivity|]. split; [reflexivity|]. split; [|split; [|split; [|split]]].
  - intros calls. apply run_nil_channel. reflexivity.
  - intros [l c rq a] ctx pick env.
    cbn [lock closed shutdownRequested activeConnections].
    intros -> -> ->. reflexivity.
  - intros [l c rq a].
    cbn [lock closed shutdownRequested activeConnections].
    intros -> -> -> ->. reflexivity.
  - intros [l c rq a].
    cbn [lock closed shutdownRequested activeConnections].
    intros -> -> ->. reflexivity.
  - intros [l c rq a].
    cbn [lock closed shutdownRequested activeConnections].
    intros -> -> -> ->. reflexivity.
Qed.

Lemma zero_value_panics_when_signal_fires_witness :
  sd_outcome (Shutdown None true [] zeroShutdowner)
    = Panics close_of_nil_channel /\
  fst (removeActiveConnection (mkShutdowner false nil_chan true 1))
    = Panics close_of_nil_channel /\
  Shutdown_locked NewShutdowner
    = (Returns tt, mkShutdowner false closed_chan true 0) /\
  removeActiveConnection (mkShutdowner false open_chan true 1)
    = (Returns tt, mkShutdowner false closed_chan true 0).
Proof.
  destruct zero_value_panics_when_signal_fires as (_ & _ & _ & A & B & C & D).
  split; [apply (A zeroShutdowner None true []); reflexivity|].
  split; [apply (B (mkShutdowner false nil_chan true 1)); reflexivity|].
  split; [apply (C NewShutdowner); reflexivity|].
  apply (D (mkShutdowner false open_chan true 1)); reflexivity.
Defined.

(** The runs of shutdown_test.go on the zero value: the handlers finish,
    then Shutdown is called. *)
Example zero_value_shutdown_after_handler :
  run [CallTryEnter; CallExit; CallShutdown] zero_start
    = Crashed close_of_nil_channel
        (mkConfig (mkShutdowner true nil_chan true 0) 0).
Proof. reflexivity. Qed.

(** Shutdown while a handler runs on the zero value: the handler's Exit
    panics. *)
Example zero_value_exit_after_shutdown :
  run [CallTryEnter; CallShutdown; CallExit] zero_start
    = Crashed close_of_nil_channel
        (mkConfig (mkShutdowner false nil_chan true 0) 0).
Proof. reflexivity. Qed.

(** ** Middleware *)

Section MiddlewareFacts.

Context {W : Type} {RW : ResponseWriter W} {Request : Type}.
Variable next : @Handler W Request.

(** C8. The handler made by [Middleware], on any wrapped handler, writer
    and request, the mutex being free. When shutdown was requested TryEnter
    returns false: the handler writes status 503 and returns; the wrapped
    handler is not called and the Shutdowner, its counter included, is as
    before. When it was not, TryEnter returns true and the wrapped handler is
    called on the Shutdowner with the counter one up; once it is over, by a
    return or by a panic, [removeActiveConnection] is called exactly once, on
    the record the wrapped handler left, and a panic of the wrapped handler
    goes on to the caller. *)
Theorem Middleware_brackets_handler (w : W) (r : Request) (g : Shutdowner) :
  lock g = false ->
  (shutdownRequested g = true ->
   Middleware_serve next w r g
     = mkServed (Returns tt) (WriteHeader 503 w) g
         [CalledAdd false; CalledWriteHeader 503]) /\
  (shutdownRequested g = false ->
   minInt <= activeConnections g < maxInt ->
   forall o w1 g2,
     next w r (set_activeConnections (activeConnections g + 1) g) = (o, w1, g2) ->
     o <> Blocks ->
     let s := Middleware_serve next w r g in
     sv_calls s = [CalledAdd true; CalledNext; CalledRemove] /\
     count (fun k => match k with CalledRemove => true | _ => false end)
       (sv_calls s) = 1%nat /\
     sv_writer s = w1 /\
     sv_state s = snd (removeActiveConnection g2) /\
     sv_outcome s
       = match fst (removeActiveConnection g2) with
         | Returns _ => o
         | o' => o'
         end).
Proof.
  intros Hl. destruct g as [l c rq a].
  cbn [lock closed shutdownRequested activeConnections] in *. subst l.
  unfold Middleware_serve. split.
  - intros ->. reflexivity.
  - intros -> Ha o w1 g2 Hnext Hret.
    rewrite addActiveConnection_free by (reflexivity || exact Ha).
    unfold set_activeConnections in Hnext.
    cbn [lock closed shutdownRequested activeConnections] in Hnext.
    rewrite Hnext.
    destruct (removeActiveConnection g2) as [o' g3].
    destruct o as [[]|p|]; [| |congruence]; cbn; repeat split; destruct o'; reflexivity.
Qed.

End MiddlewareFacts.

Lemma Middleware_brackets_handler_witness :
  let boom : @Handler ResponseRecorder unit :=
    fun w _ g => (Panics (handler_panic "boom"), w, g) in
  Middleware_serve boom (mkRecorder None) tt
      (mkShutdowner false closed_chan true 0)
    = mkServed (Returns tt) (mkRecorder (Some 503))
        (mkShutdowner false closed_chan true 0)
        [CalledAdd false; CalledWriteHeader 503] /\
  (let s := Middleware_serve boom (mkRecorder None) tt NewShutdowner in
   sv_calls s = [CalledAdd true; CalledNext; CalledRemove] /\
   count (fun k => match k with CalledRemove => true | _ => false end)
     (sv_calls s) = 1%nat /\
   sv_writer s = mkRecorder None /\
   sv_state s = NewShutdowner /\
   sv_outcome s = Panics (handler_panic "boom")).
Proof.
  intros boom. split.
  - exact (proj1 (Middleware_brackets_handler boom (mkRecorder None) tt
                    (mkShutdowner false closed_chan true 0) eq_refl) eq_refl).
  - refine (proj2 (Middleware_brackets_handler boom (mkRecorder None) tt
                     NewShutdowner eq_refl) eq_refl _
                  (Panics (handler_panic "boom")) (mkRecorder None)
                  (mkShutdowner false open_chan false 1) eq_refl _);
      [split; [discriminate | reflexivity] | discriminate].
Defined.

(** ** ShutdownWithServer *)

Lemma same_error_refl e : same_error e e = true.
Proof.
  destruct e; cbn [same_error]; auto using String.eqb_refl, Nat.eqb_refl.
Qed.

Lemma errors_Is_same err target :
  same_error err target = true -> errors_Is err target = true.
Proof. intros H. destruct err; cbn [errors_Is]; rewrite H; reflexivity. Qed.

(** [errors.Is(err, err)], for a join error too. *)
Lemma errors_Is_refl e : errors_Is e e = true.
Proof. apply errors_Is_same, same_error_refl. Qed.

(** An error that was joined is found again by [errors.Is]. *)
Lemma errors_Is_joined a es e :
  In e es -> errors_Is (joinError a es) e = true.
Proof.
  intros Hin. cbn [errors_Is]. apply orb_true_iff. right.
  apply existsb_exists. exists e. split; [exact Hin|].
  apply errors_Is_refl.
Qed.

Lemma errors_Join_two fresh (a b : option error) :
  errors_Join fresh [a; b] =
    match a, b with
    | None, None => None
    | Some x, None => Some (joinError fresh [x])
    | None, Some y => Some (joinError fresh [y])
    | Some x, Some y => Some (joinError fresh [x; y])
    end.
Proof. destruct a, b; reflexivity. Qed.

Lemma env_step_keeps_request ev ctx g :
  lock g = false ->
  shutdownRequested g = true ->
  lock (snd (env_step ev ctx g)) = false /\
  shutdownRequested (snd (env_step ev ctx g)) = true.
Proof.
  destruct g as [l c rq a]. cbn [lock shutdownRequested]. intros -> ->.
  destruct ev; unfold env_step; cbn [snd]; [auto| |auto].
  unfold removeActiveConnection, Lock. cbn -[decr Z.eqb].
  destruct (decr a =? 0); [destruct c|]; cbn; auto.
Qed.

Lemma await_keeps_request pick env : forall ctx g,
  lock g = false ->
  shutdownRequested g = true ->
  lock (sd_state (await pick env ctx g)) = false /\
  shutdownRequested (sd_state (await pick env ctx g)) = true.
Proof.
  induction env as [|ev env IH]; intros ctx g Hl Hrq; cbn [await];
    destruct (select2 _ _ _ _ _); cbn [sd_state]; auto.
  destruct (env_step_keeps_request ev ctx g Hl Hrq) as [Hl' Hrq'].
  destruct (env_step ev ctx g) as [ctx' g']. cbn [snd sd_state] in *.
  apply IH; assumption.
Qed.

(** With the mutex free [Shutdown] sets [shutdownRequested], however it
    ends. *)
Lemma Shutdown_requests ctx pick env g :
  lock g = false ->
  shutdownRequested (sd_state (Shutdown ctx pick env g)) = true.
Proof.
  destruct g as [l c rq a]. cbn [lock]. intros ->. unfold Shutdown.
  rewrite Shutdown_locked_free by reflexivity.
  destruct (a =? 0); [destruct (close c)|]; cbn [sd_state shutdownRequested];
    try reflexivity; apply await_keeps_request; reflexivity.
Qed.

(** C9. [ShutdownWithServer] and its two shutdowns.
    - It waits for both: it returns only when both [g.Shutdown(ctx)] and
      [server.Shutdown(ctx)] have returned.
    - It joins the errors: whenever both return it returns [errors.Join] of
      the two errors: nil when both are nil; when both failed, a join error
      that unwraps to the server's error and the Shutdowner's error, in this
      order; and every error of either side is among the unwrapped errors of
      the result, where [errors.Is] finds it.
    - It runs them concurrently: neither waits for the other. The
      Shutdowner's shutdown is carried out whatever [server.Shutdown] does,
      also when it never returns ([shutdownRequested] is set and the
      Shutdowner is left as [g.Shutdown] leaves it), and [server.Shutdown]
      is carried out whatever [g.Shutdown] does: its panic comes out even
      while [g.Shutdown] is still waiting, as the panic of [g.Shutdown]
      comes out while [server.Shutdown] has not returned. When one of them
      never returns and none panics, the function never returns. *)
Theorem ShutdownWithServer_joins_errors
    (ctx : context) (pick : bool) (env : list env_event)
    (serverShutdown : outcome (option error)) (fresh : nat) (g : Shutdowner) :
  let res := Shutdown ctx pick env g in
  let out := ShutdownWithServer ctx pick env serverShutdown fresh g in
  let result := fst out in
  (forall r, result = Returns r ->
     exists serverErr shutdownerErr,
       serverShutdown = Returns serverErr /\
       sd_outcome res = Returns shutdownerErr) /\
  (forall serverErr shutdownerErr,
     serverShutdown = Returns serverErr ->
     sd_outcome res = Returns shutdownerErr ->
     result = Returns (errors_Join fresh [serverErr; shutdownerErr]) /\
     (serverErr = None -> shutdownerErr = None -> result = Returns None) /\
     (forall e1 e2,
        serverErr = Some e1 -> shutdownerErr = Some e2 ->
        result = Returns (Some (joinError fresh [e1; e2]))) /\
     (forall e,
        serverErr = Some e \/ shutdownerErr = Some e ->
        exists j, result = Returns (Some j) /\ In e (Unwrap j) /\
                  errors_Is j e = true)) /\
  snd out = sd_state res /\
  (lock g = false -> shutdownRequested (snd out) = true) /\
  (forall p, sd_outcome res = Panics p -> result = Panics p) /\
  (forall p,
     serverShutdown = Panics p ->
     sd_outcome res = Blocks \/ (exists r, sd_outcome res = Returns r) ->
     result = Panics p) /\
  (sd_outcome res = Blocks ->
   serverShutdown = Blocks \/ (exists r, serverShutdown = Returns r) ->
   result = Blocks) /\
  (serverShutdown = Blocks ->
   (exists r, sd_outcome res = Returns r) ->
   result = Blocks).
Proof.
  cbv zeta.
  assert (Hsnd : snd (ShutdownWithServer ctx pick env serverShutdown fresh g)
                 = sd_state (Shutdown ctx pick env g)).
  { unfold ShutdownWithServer.
    destruct (sd_outcome (Shutdown ctx pick env g)) as [b| |],
             serverShutdown as [a| |]; reflexivity. }
  split; [|split; [|split; [exact Hsnd|split; [|split; [|split; [|split]]]]]].
  - intros r. unfold ShutdownWithServer.
    destruct (sd_outcome (Shutdown ctx pick env g)) as [b| |],
             serverShutdown as [a| |]; cbn [fst]; try discriminate.
    intros _. exists a, b. split; reflexivity.
  - intros a b -> Hb. unfold ShutdownWithServer. rewrite Hb.
    cbn [fst]. rewrite errors_Join_two.
    split; [reflexivity|]. split; [intros -> ->; reflexivity|].
    split; [intros e1 e2 -> ->; reflexivity|].
    intros e [-> | ->].
    + destruct b as [y|]; eexists; (split; [reflexivity|]);
        cbn [Unwrap]; (split; [cbn; auto|]);
        apply errors_Is_joined; cbn; auto.
    + destruct a as [x|]; eexists; (split; [reflexivity|]);
        cbn [Unwrap]; (split; [cbn; auto|]);
        apply errors_Is_joined; cbn; auto.
  - intros Hl. rewrite Hsnd. apply Shutdown_requests. exact Hl.
  - intros p Hp. unfold ShutdownWithServer. rewrite Hp. reflexivity.
  - intros p -> [Hb | [r Hr]]; unfold ShutdownWithServer;
      [rewrite Hb | rewrite Hr]; reflexivity.
  - intros Hb [-> | [r ->]]; unfold ShutdownWithServer; rewrite Hb;
      reflexivity.
  - intros -> [r Hr]. unfold ShutdownWithServer. rewrite Hr. reflexivity.
Qed.

Lemma ShutdownWithServer_joins_errors_witness :
  let env := [EnvCtxDone DeadlineExceeded] in
  let g := mkShutdowner false open_chan false 1 in
  let server := Returns (Some (otherError "listener")) in
  let result := fst (ShutdownWithServer None true env server 7 g) in
  result
    = Returns (Some (joinError 7 [otherError "listener"; DeadlineExceeded]))
  /\ (exists j, result = Returns (Some j) /\
        In DeadlineExceeded (Unwrap j) /\
        errors_Is j DeadlineExceeded = true)
  /\ fst (ShutdownWithServer None true [] (Returns None) 7 NewShutdowner)
     = Returns None
  /\ shutdownRequested (snd (ShutdownWithServer None true [] Blocks 7 g))
     = true
  /\ fst (ShutdownWithServer None true []
            (Panics (handler_panic "server")) 7 g)
     = Panics (handler_panic "server").
Proof.
  intros env g server result.
  pose proof (proj1 (proj2 (ShutdownWithServer_joins_errors None true env
                              server 7 g))
                (Some (otherError "listener")) (Some DeadlineExceeded)
                eq_refl eq_refl) as (_ & _ & Both & Each).
  split; [exact (Both _ _ eq_refl eq_refl)|].
  split; [exact (Each DeadlineExceeded (or_intror eq_refl))|].
  split.
  { exact (proj1 (proj2 (proj1 (proj2 (ShutdownWithServer_joins_errors None
                           true [] (Returns None) 7 NewShutdowner))
                         None None eq_refl eq_refl)) eq_refl eq_refl). }
  split.
  { exact (proj1 (proj2 (proj2 (proj2 (ShutdownWithServer_joins_errors None
                           true [] Blocks 7 g)))) eq_refl). }
  exact (proj1 (proj2 (proj2 (proj2 (proj2 (proj2
           (ShutdownWithServer_joins_errors None true []
              (Panics (handler_panic "server")) 7 g))))))
           (handler_panic "server") eq_refl (or_introl eq_refl)).
Defined.

(** * Further properties of the code *)

(** ** What never reverts *)

Ltac crush_calls :=
  unfold step, addActiveConnection, removeActiveConnection, Shutdown_locked,
    Lock, Unlock, set_lock, set_closed, set_shutdownRequested,
    set_activeConnections;
  cbn -[decr incr Z.eqb];
  repeat match goal with
    | |- context [if ?b then _ else _] => destruct b; cbn -[decr incr Z.eqb]
    | |- context [match ?n with O => _ | S _ => _ end] =>
        destruct n; cbn -[decr incr Z.eqb]
    end;
  try reflexivity; try discriminate.

Lemma step_requested k c :
  shutdownRequested (coord c) = true ->
  shutdownRequested (coord (config_of (step k c))) = true.
Proof.
  destruct c as [[l ch rq a] n]. cbn [coord shutdownRequested]. intros ->.
  destruct k, ch; crush_calls.
Qed.

Lemma step_closed k c :
  closed (coord c) = closed_chan ->
  closed (coord (config_of (step k c))) = closed_chan.
Proof.
  destruct c as [[l ch rq a] n]. cbn [coord closed]. intros ->.
  destruct k; crush_calls.
Qed.

(** X1. [shutdownRequested] is one-way: whatever the Shutdowner and whatever
    the calls made on it (also calls that panic, block or break the
    contract), once it is set it stays set. *)
Theorem shutdownRequested_never_reverts (calls : list call) (c : config) :
  shutdownRequested (coord c) = true ->
  shutdownRequested (coord (config_of (run calls c))) = true.
Proof.
  revert c. induction calls as [|k ks IH]; intros c H; cbn [run]; [exact H|].
  pose proof (step_requested k c H) as Hs.
  destruct (step k c); cbn [config_of] in *; auto.
Qed.

Lemma shutdownRequested_never_reverts_witness :
  shutdownRequested
    (coord (config_of (run [CallTryEnter; CallExit; CallShutdown; CallExit]
                         (mkConfig (mkShutdowner false open_chan true 1) 1))))
    = true.
Proof.
  apply (shutdownRequested_never_reverts
           [CallTryEnter; CallExit; CallShutdown; CallExit]
           (mkConfig (mkShutdowner false open_chan true 1) 1)).
  reflexivity.
Defined.

(** X2. The signal is permanent: no call opens a closed channel again. *)
Theorem closed_channel_stays_closed (calls : list call) (c : config) :
  closed (coord c) = closed_chan ->
  closed (coord (config_of (run calls c))) = closed_chan.
Proof.
  revert c. induction calls as [|k ks IH]; intros c H; cbn [run]; [exact H|].
  pose proof (step_closed k c H) as Hs.
  destruct (step k c); cbn [config_of] in *; auto.
Qed.

Lemma closed_channel_stays_closed_witness :
  closed
    (coord (config_of (run [CallTryEnter; CallShutdown; CallExit; CallExit]
                         (mkConfig (mkShutdowner false closed_chan true 0) 0))))
    = closed_chan.
Proof.
  apply (closed_channel_stays_closed
           [CallTryEnter; CallShutdown; CallExit; CallExit]
           (mkConfig (mkShutdowner false closed_chan true 0) 0)).
  reflexivity.
Defined.

(** ** The signal and the counter along any run *)

Lemma step_signal k c :
  consistent c ->
  Z.of_nat (inflight c) < maxInt ->
  closed (coord (config_of (step k c)))
    = signal_of (coord (config_of (step k c))).
Proof.
  intros Hc Hn. pose proof (step_consistent k c Hc Hn) as Hs.
  destruct (step k c) as [c1|p c1|c1|c1] eqn:E; cbn [config_of].
  - apply Hs.
  - destruct Hs as (_ & -> & _ & _).
    destruct c as [[l ch rq a] n]. destruct Hc as (Hl & Hcnt & Hch).
    unfold counted, signal_of in *.
    cbn [coord inflight lock closed shutdownRequested activeConnections] in *.
    subst l ch. unfold step in E. cbn [coord inflight] in E.
    rewrite Shutdown_locked_free in E by reflexivity.
    destruct (a =? 0) eqn:Ea; [|discriminate].
    destruct rq; cbn [andb close] in E; [|discriminate].
    injection E as _ <-.
    cbn [coord closed shutdownRequested activeConnections]. rewrite Ea.
    reflexivity.
  - contradiction.
  - destruct Hs as (-> & _). apply Hc.
Qed.

Lemma run_signal calls : forall c,
  consistent c ->
  Z.of_nat (inflight c) + Z.of_nat (List.length calls) <= maxInt ->
  closed (coord (config_of (run calls c)))
    = signal_of (coord (config_of (run calls c))).
Proof.
  induction calls as [|k ks IH]; intros c Hc Hlen; cbn [run].
  - apply Hc.
  - cbn [List.length] in Hlen.
    pose proof (step_consistent k c Hc ltac:(lia)) as Hs.
    pose proof (step_signal k c Hc ltac:(lia)) as Hsig.
    destruct (step k c) as [c1|p c1|c1|c1]; try exact Hsig.
    destruct Hs as [Hc1 Hn1]. apply IH; [exact Hc1 | lia].
Qed.

(** X3. On a Shutdowner made by [NewShutdowner] and used under the caller
    contract the channel is never nil, and it is closed exactly in the states
    where shutdown was requested and nothing is in flight: the signal does
    not fire before the request nor while a handler runs, and it has fired
    whenever both hold. This is so after every run, also one that ended in
    the panic of a repeated Shutdown. *)
Theorem signal_fired_iff_quiescent (calls : list call) :
  Z.of_nat (List.length calls) <= maxInt ->
  let g := after_calls calls in
  closed g <> nil_chan /\
  (closed g = closed_chan <->
   shutdownRequested g = true /\ activeConnections g = 0).
Proof.
  intros Hlen g.
  pose proof (run_signal calls start start_consistent
                ltac:(cbn [start inflight]; lia)) as H.
  fold (after_calls calls) in H. fold g in H. unfold signal_of in H.
  rewrite H.
  destruct (shutdownRequested g) eqn:Er, (activeConnections g =? 0) eqn:Ea;
    cbn [andb]; (split; [discriminate|]).
  - apply Z.eqb_eq in Ea. tauto.
  - apply Z.eqb_neq in Ea. split; [discriminate | tauto].
  - split; [discriminate | intros [? _]; discriminate].
  - split; [discriminate | intros [? _]; discriminate].
Qed.

Lemma signal_fired_iff_quiescent_witness :
  let g := after_calls [CallTryEnter; CallShutdown; CallExit; CallShutdown] in
  closed g <> nil_chan /\
  (closed g = closed_chan <->
   shutdownRequested g = true /\ activeConnections g = 0).
Proof.
  apply (signal_fired_iff_quiescent
           [CallTryEnter; CallShutdown; CallExit; CallShutdown]).
  vm_compute. discriminate.
Defined.

Lemma step_after_request k c :
  consistent c ->
  shutdownRequested (coord c) = true ->
  (inflight (config_of (step k c)) <= inflight c)%nat.
Proof.
  destruct c as [[l ch rq a] n]. unfold consistent, counted.
  cbn [coord inflight lock closed shutdownRequested activeConnections].
  intros (-> & -> & _) ->.
  destruct k; unfold step; cbn [coord inflight].
  - rewrite addActiveConnection_requested. cbn [config_of inflight]. lia.
  - destruct n as [|n]; [cbn [config_of inflight]; lia|].
    destruct (removeActiveConnection _) as [[| |] g];
      cbn [config_of inflight]; lia.
  - destruct (Shutdown_locked _) as [[| |] g]; cbn [config_of inflight]; lia.
Qed.

Lemma run_after_request calls : forall c,
  consistent c ->
  shutdownRequested (coord c) = true ->
  Z.of_nat (inflight c) < maxInt ->
  (inflight (config_of (run calls c)) <= inflight c)%nat /\
  counted (config_of (run calls c)).
Proof.
  induction calls as [|k ks IH]; intros c Hc Hrq Hn; cbn [run].
  - split; [cbn [config_of]; lia | apply Hc].
  - pose proof (step_consistent k c Hc Hn) as Hs.
    pose proof (step_after_request k c Hc Hrq) as Hle.
    pose proof (step_requested k c Hrq) as Hrq'.
    destruct (step k c) as [c1|p c1|c1|c1]; cbn [config_of] in *.
    + destruct Hs as [Hc1 _].
      destruct (IH c1 Hc1 Hrq' ltac:(lia)) as [A B]. split; [lia | exact B].
    + split; [exact Hle | apply Hs].
    + contradiction.
    + destruct Hs as (-> & _). split; [lia | apply Hc].
Qed.

(** X4. No admission once shutdown is requested: from a state reached under
    the contract in which [shutdownRequested] is set, no sequence of further
    calls makes [activeConnections] go up; it stays between 0 and what it
    was. *)
Theorem no_admission_after_request (pre post : list call) (c : config) :
  Z.of_nat (List.length pre) < maxInt ->
  run pre start = Finished c ->
  shutdownRequested (coord c) = true ->
  let g' := coord (config_of (run post c)) in
  0 <= activeConnections g' <= activeConnections (coord c).
Proof.
  intros Hlen Hrun Hrq g'.
  destruct (run_consistent pre start start_consistent
              ltac:(cbn [start inflight]; lia)) as (_ & B & _ & D).
  rewrite Hrun in D. cbn [config_of start inflight] in D.
  pose proof (B c Hrun) as Hc.
  destruct (run_after_request post c Hc Hrq ltac:(lia)) as [Hle Hcnt'].
  destruct Hc as (_ & Hcnt & _). unfold counted in *. subst g'.
  rewrite Hcnt', Hcnt. lia.
Qed.

Lemma no_admission_after_request_witness :
  let c := mkConfig (mkShutdowner false open_chan true 2) 2 in
  let g' := coord (config_of (run [CallTryEnter; CallExit; CallTryEnter] c)) in
  0 <= activeConnections g' <= activeConnections (coord c).
Proof.
  apply (no_admission_after_request
           [CallTryEnter; CallTryEnter; CallShutdown]
           [CallTryEnter; CallExit; CallTryEnter]
           (mkConfig (mkShutdowner false open_chan true 2) 2));
    reflexivity.
Defined.

(** ** The mutex after a panic *)

Lemma free_mutex_does_not_block h :
  lock h = false ->
  fst (addActiveConnection h) <> Blocks /\
  fst (removeActiveConnection h) <> Blocks /\
  fst (Shutdown_locked h) <> Blocks.
Proof.
  destruct h as [l c rq a]. cbn [lock]. intros ->.
  unfold addActiveConnection, removeActiveConnection, Shutdown_locked, Lock.
  cbn -[decr incr Z.eqb].
  split; [destruct rq; discriminate|]. split.
  - destruct (rq && (decr a =? 0)); [destruct (close c)|]; discriminate.
  - destruct (a =? 0); [destruct (close c)|]; discriminate.
Qed.

Section Wedged.

Context {W : Type} {RW : ResponseWriter W} {Request : Type}.

(** X5. The two panics and the mutex. [removeActiveConnection] unlocks by
    [defer]: when its [close] panics (on [h]) the mutex is free afterwards
    and no later call blocks on it. [Shutdown] unlocks by hand: when its
    [close] panics (on [g]) the mutex stays held, and every later call on
    that Shutdowner blocks: [addActiveConnection], [removeActiveConnection],
    [Shutdown], and with them every request that goes through [Middleware],
    which never reaches the wrapped handler. *)
Theorem Shutdown_panic_leaves_mutex_held
    (h : Shutdowner) (q : panic_value) (h' : Shutdowner)
    (g : Shutdowner) (p : panic_value) (g' : Shutdowner) :
  lock h = false ->
  removeActiveConnection h = (Panics q, h') ->
  lock g = false ->
  Shutdown_locked g = (Panics p, g') ->
  (lock h' = false /\
   fst (addActiveConnection h') <> Blocks /\
   fst (removeActiveConnection h') <> Blocks /\
   fst (Shutdown_locked h') <> Blocks) /\
  lock g' = true /\
  addActiveConnection g' = (Blocks, g') /\
  removeActiveConnection g' = (Blocks, g') /\
  (forall ctx pick env, Shutdown ctx pick env g' = mkResult Blocks 0 g') /\
  (forall (next : @Handler W Request) w r,
     Middleware_serve next w r g' = mkServed Blocks w g' []).
Proof.
  intros Hh Hrem Hg Hsd. split.
  - assert (Hl : lock h' = false).
    { destruct h as [l c rq a]. cbn [lock] in Hh. subst l.
      revert Hrem. unfold removeActiveConnection, Lock. cbn -[decr Z.eqb].
      destruct (rq && (decr a =? 0)); [destruct (close c)|];
        intros [= _ <-]; reflexivity. }
    split; [exact Hl | apply free_mutex_does_not_block; exact Hl].
  - destruct g as [l c rq a]. cbn [lock] in Hg. subst l.
    rewrite Shutdown_locked_free in Hsd by reflexivity.
    destruct (a =? 0); [|discriminate].
    destruct (close c) as [p'|c'] eqn:Ec; [|discriminate].
    injection Hsd as _ <-.
    split; [reflexivity|]. split; [reflexivity|]. split; [reflexivity|].
    split; reflexivity.
Qed.

End Wedged.

Lemma Shutdown_panic_leaves_mutex_held_witness :
  let h' := mkShutdowner false nil_chan true 0 in
  let g' := mkShutdowner true closed_chan true 0 in
  (lock h' = false /\
   fst (addActiveConnection h') <> Blocks /\
   fst (removeActiveConnection h') <> Blocks /\
   fst (Shutdown_locked h') <> Blocks) /\
  lock g' = true /\
  addActiveConnection g' = (Blocks, g') /\
  removeActiveConnection g' = (Blocks, g') /\
  (forall ctx pick env, Shutdown ctx pick env g' = mkResult Blocks 0 g') /\
  (forall (next : @Handler ResponseRecorder unit) w r,
     Middleware_serve next w r g' = mkServed Blocks w g' []).
Proof.
  apply (Shutdown_panic_leaves_mutex_held
           (mkShutdowner false nil_chan true 1) close_of_nil_channel
           (mkShutdowner false nil_chan true 0)
           (mkShutdowner false closed_chan true 0) close_of_closed_channel
           (mkShutdowner true closed_chan true 0)); reflexivity.
Defined.

(** ** Requests through Middleware *)

Section ServingFacts.

Context {W : Type} {RW : ResponseWriter W} {Request : Type}.

(** X6. Before shutdown is requested the handler made by [Middleware] is
    transparent: when the wrapped handler ends, by a return or by a panic,
    and leaves the Shutdowner as it found it, the wrapping handler ends the
    same way, with the same writer, and the Shutdowner is back to what it
    was before the request (the counter went up and down again). *)
Theorem Middleware_restores_Shutdowner
    (next : @Handler W Request) (w : W) (r : Request) (g : Shutdowner)
    (o : outcome unit) (w1 : W) :
  lock g = false ->
  shutdownRequested g = false ->
  minInt <= activeConnections g < maxInt ->
  (let g1 := set_activeConnections (activeConnections g + 1) g in
   next w r g1 = (o, w1, g1)) ->
  o <> Blocks ->
  Middleware next w r g = (o, w1, g).
Proof.
  destruct g as [l c rq a].
  cbn [lock closed shutdownRequested activeConnections]. intros -> -> Ha.
  unfold set_activeConnections.
  cbn [lock closed shutdownRequested activeConnections]. intros Hnext Ho.
  unfold Middleware, Middleware_serve.
  rewrite addActiveConnection_free by (reflexivity || exact Ha).
  rewrite Hnext.
  rewrite removeActiveConnection_free by (reflexivity || lia).
  cbn [andb]. replace (a + 1 - 1) with a by lia.
  destruct o as [[]|p|]; [reflexivity | reflexivity | congruence].
Qed.

Lemma serve_all_plain (f : W -> Request -> W) reqs : forall w g,
  lock g = false ->
  shutdownRequested g = false ->
  minInt <= activeConnections g < maxInt ->
  serve_all (Middleware (plain_handler f)) w reqs g
    = (Returns tt, fold_left f reqs w, g).
Proof.
  induction reqs as [|r rs IH]; intros w g Hl Hrq Ha; cbn [serve_all fold_left];
    [reflexivity|].
  destruct g as [l c rq a].
  cbn [lock closed shutdownRequested activeConnections] in *. subst l rq.
  unfold Middleware at 1, Middleware_serve.
  rewrite addActiveConnection_free by (reflexivity || exact Ha).
  match goal with
  | |- context [plain_handler f w r ?g1] =>
      change (plain_handler f w r g1) with (Returns tt, f w r, g1)
  end.
  cbv beta iota.
  rewrite removeActiveConnection_free by (reflexivity || lia).
  cbn [andb sv_outcome sv_writer sv_state]. replace (a + 1 - 1) with a by lia.
  apply IH; auto.
Qed.

(** X7. The benchmark, for every number of requests: served one after the
    other before shutdown, each request runs the wrapped handler once, in
    order, and the Shutdowner ends as it began; with the counter at 0,
    [Shutdown] with a context that is never done then closes the channel and
    returns nil without waiting. *)
Theorem serve_all_then_Shutdown
    (f : W -> Request -> W) (w : W) (reqs : list Request) (g : Shutdowner)
    (pick : bool) (env : list env_event) :
  lock g = false ->
  shutdownRequested g = false ->
  closed g = open_chan ->
  activeConnections g = 0 ->
  let served := serve_all (Middleware (plain_handler f)) w reqs g in
  served = (Returns tt, fold_left f reqs w, g) /\
  Shutdown None pick env (snd served)
    = mkResult (Returns None) 0 (mkShutdowner false closed_chan true 0).
Proof.
  intros Hl Hrq Hc Ha served. subst served.
  rewrite serve_all_plain;
    [ | exact Hl | exact Hrq | rewrite Ha; split; [discriminate|reflexivity]].
  split; [reflexivity|]. cbn [snd].
  destruct g as [l c rq a].
  cbn [lock closed shutdownRequested activeConnections] in *. subst.
  destruct env; reflexivity.
Qed.

Lemma serve_all_rejected (next : @Handler W Request) reqs : forall w g,
  lock g = false ->
  shutdownRequested g = true ->
  serve_all (Middleware next) w reqs g
    = (Returns tt,
       fold_left (fun w' _ => WriteHeader StatusServiceUnavailable w') reqs w,
       g).
Proof.
  induction reqs as [|r rs IH]; intros w g Hl Hrq; cbn [serve_all fold_left];
    [reflexivity|].
  destruct g as [l c rq a].
  cbn [lock closed shutdownRequested activeConnections] in *. subst l rq.
  unfold Middleware at 1, Middleware_serve.
  rewrite addActiveConnection_requested.
  cbn [sv_outcome sv_writer sv_state]. apply IH; reflexivity.
Qed.

End ServingFacts.

Lemma Middleware_restores_Shutdowner_witness :
  let boom : @Handler ResponseRecorder unit :=
    fun w _ g => (Panics (handler_panic "boom"), w, g) in
  Middleware boom (mkRecorder None) tt NewShutdowner
    = (Panics (handler_panic "boom"), mkRecorder None, NewShutdowner).
Proof.
  intros boom.
  apply (Middleware_restores_Shutdowner boom (mkRecorder None) tt
           NewShutdowner (Panics (handler_panic "boom")) (mkRecorder None));
    [reflexivity | reflexivity | split; [discriminate | reflexivity]
    | reflexivity | discriminate].
Defined.

Lemma serve_all_then_Shutdown_witness :
  let count_call : ResponseRecorder -> unit -> ResponseRecorder :=
    fun w _ => mkRecorder (Some (match Code w with Some n => n + 1 | None => 1 end)) in
  let served := serve_all (Middleware (plain_handler count_call))
                  (mkRecorder None) [tt; tt; tt] NewShutdowner in
  served = (Returns tt, fold_left count_call [tt; tt; tt] (mkRecorder None),
            NewShutdowner) /\
  Shutdown None true [] (snd served)
    = mkResult (Returns None) 0 (mkShutdowner false closed_chan true 0).
Proof.
  intros count_call.
  apply (serve_all_then_Shutdown count_call (mkRecorder None) [tt; tt; tt]
           NewShutdowner true []); reflexivity.
Defined.

(** ** How Shutdown ends *)

(** Shutdown called for the first time in a state reached under the contract
    starts the drain of the operations in flight. *)
Lemma first_Shutdown_starts_draining pre c :
  Z.of_nat (List.length pre) <= maxInt ->
  count is_shutdown pre = 0%nat ->
  run pre start = Finished c ->
  Z.of_nat (inflight c) <= maxInt /\
  exists g1, Shutdown_locked (coord c) = (Returns tt, g1) /\
             draining g1 (inflight c).
Proof.
  intros Hlen Hno Hrun.
  destruct (reachable_consistent pre c Hlen Hrun) as [Hc Hmax].
  destruct (run_before_shutdown pre start c start_consistent eq_refl
              ltac:(cbn [start inflight]; lia) Hno Hrun) as [Hrq _].
  split; [exact Hmax|]. apply Shutdown_locked_starts_draining; assumption.
Qed.




Lemma await_done_open pick env e g :
  closed g = open_chan ->
  await pick env (Some e) g = mkResult (Returns (Some e)) 0 g.
Proof.
  intros Hch. destruct env; cbn [await]; unfold select2; rewrite Hch;
    reflexivity.
Qed.

Lemma await_context_done pick e after before : forall g n,
  draining g n ->
  Z.of_nat n <= maxInt ->
  forallb no_ctx_done before = true ->
  (count is_env_exit before < n)%nat ->
  exists g',
    await pick (before ++ EnvCtxDone e :: after) None g
      = mkResult (Returns (Some e)) (S (List.length before)) g' /\
    draining g' (n - count is_env_exit before).
Proof.
  induction before as [|ev before IH]; intros g n Hd Hmax Hlive Hlt.
  - pose proof Hd as (_ & _ & _ & Hch).
    cbn [app await]. unfold select2. rewrite Hch.
    destruct n as [|n]; [unfold count in Hlt; cbn in Hlt; lia|].
    cbn [recv_ready ctx_Done env_step]. rewrite (await_done_open _ _ _ _ Hch).
    cbn [sd_outcome sd_waited sd_state List.length].
    exists g. split; [reflexivity|].
    unfold count. cbn [filter List.length]. rewrite Nat.sub_0_r. exact Hd.
  - pose proof Hd as (_ & _ & _ & Hch).
    cbn [forallb] in Hlive. apply andb_prop in Hlive as [Hev Hlive].
    rewrite count_cons in Hlt.
    destruct n as [|n]; [lia|].
    assert (Hev1 : (count is_env_exit [ev] <= S n)%nat).
    { rewrite count_cons. unfold count. cbn. destruct (is_env_exit ev); lia. }
    destruct (env_step_draining ev None g (S n) Hd Hmax Hev1)
      as (ctx' & E & Hd').
    assert (ctx' = None) as ->.
    { destruct ev; try discriminate; cbn in E; congruence. }
    rewrite count_cons in Hd'.
    replace (count is_env_exit []) with 0%nat in Hd' by reflexivity.
    destruct (IH _ _ Hd' ltac:(lia) Hlive
                ltac:(destruct (is_env_exit ev); lia)) as (g' & Eaw & Hd'').
    cbn [app await]. unfold select2 at 1. rewrite Hch.
    cbn [recv_ready ctx_Done]. rewrite E, Eaw.
    cbn [sd_outcome sd_waited sd_state List.length].
    exists g'. split; [reflexivity|].
    rewrite count_cons.
    replace (S n - ((if is_env_exit ev then 1 else 0)
                    + count is_env_exit before))%nat
      with (S n - ((if is_env_exit ev then 1 else 0) + 0)
            - count is_env_exit before)%nat by lia.
    exact Hd''.
Qed.

(** X9. "If the context is cancelled before all handlers finish, the
    function returns the context error": when the context is done with
    error [e] while an admitted operation has still not called Exit,
    Shutdown returns [e] at that instant. It leaves the mutex free, the
    channel open and the counter at the number of operations still in
    flight, so the drain goes on. *)
Theorem Shutdown_returns_context_error
    (pre : list call) (c : config) (pick : bool)
    (before after : list env_event) (e : error) :
  Z.of_nat (List.length pre) <= maxInt ->
  count is_shutdown pre = 0%nat ->
  run pre start = Finished c ->
  forallb no_ctx_done before = true ->
  (count is_env_exit before < inflight c)%nat ->
  let res := Shutdown None pick (before ++ EnvCtxDone e :: after) (coord c) in
  sd_outcome res = Returns (Some e) /\
  sd_waited res = S (List.length before) /\
  draining (sd_state res) (inflight c - count is_env_exit before).
Proof.
  intros Hlen Hno Hrun Hlive Hlt.
  destruct (first_Shutdown_starts_draining pre c Hlen Hno Hrun)
    as (Hmax & g1 & E & Hd).
  destruct (await_context_done pick e after before g1 (inflight c)
              Hd Hmax Hlive Hlt) as (g' & Eaw & Hd').
  cbv zeta. unfold Shutdown. rewrite E, Eaw.
  cbn [sd_outcome sd_waited sd_state]. auto.
Qed.

Lemma Shutdown_returns_context_error_witness :
  let res := Shutdown None true
               ([EnvExit; EnvTryEnter] ++ EnvCtxDone Canceled :: [EnvExit])
               (mkShutdowner false open_chan false 2) in
  sd_outcome res = Returns (Some Canceled) /\
  sd_waited res = 3%nat /\
  draining (sd_state res) 1.
Proof.
  apply (Shutdown_returns_context_error
           [CallTryEnter; CallTryEnter]
           (mkConfig (mkShutdowner false open_chan false 2) 2) true
           [EnvExit; EnvTryEnter] [EnvExit] Canceled).
  - vm_compute. discriminate.
  - reflexivity.
  - reflexivity.
  - reflexivity.
  - vm_compute. apply le_n.
Defined.

Lemma Shutdown_window_nil ctx pick env g :
  Shutdown_window ctx pick [] env g = Shutdown ctx pick env g.
Proof.
  unfold Shutdown_window, Shutdown.
  destruct (Shutdown_locked g) as [[u|p|] g1]; reflexivity.
Qed.

(** The events of the window go on with the drain; a context that is done
    stays done. *)
Lemma env_steps_draining e window : forall g n,
  draining g n ->
  Z.of_nat n <= maxInt ->
  (count is_env_exit window <= n)%nat ->
  exists g',
    env_steps window (Some e) g = (Some e, g') /\
    draining g' (n - count is_env_exit window).
Proof.
  induction window as [|ev window IH]; intros g n Hd Hmax Hc; cbn [env_steps].
  - exists g. split; [reflexivity|].
    unfold count. cbn [filter List.length]. rewrite Nat.sub_0_r. exact Hd.
  - rewrite count_cons in Hc.
    assert (Hev : (count is_env_exit [ev] <= n)%nat).
    { rewrite count_cons.
      replace (count is_env_exit []) with 0%nat by reflexivity. lia. }
    destruct (env_step_draining ev (Some e) g n Hd Hmax Hev)
      as (ctx' & E & Hd').
    assert (ctx' = Some e) as ->.
    { destruct ev; cbn in E; congruence. }
    rewrite E. rewrite count_cons in Hd'.
    replace (count is_env_exit []) with 0%nat in Hd' by reflexivity.
    destruct (IH _ _ Hd' ltac:(lia) ltac:(lia)) as (g' & Es & Hd'').
    exists g'. split; [exact Es|]. rewrite count_cons.
    replace (n - ((if is_env_exit ev then 1 else 0)
                  + count is_env_exit window))%nat
      with (n - ((if is_env_exit ev then 1 else 0) + 0)
            - count is_env_exit window)%nat by lia.
    exact Hd''.
Qed.

(** X10. Shutdown called with a context that is already done while
    operations are in flight, other goroutines running between its
    [Unlock] and its [select] (the events [window]). Shutdown sets
    [shutdownRequested] and returns at the first evaluation of the [select],
    whatever comes later. When an operation is still in flight at that
    point it returns the context's error. When the last Exit came in the
    window, the channel is closed too, both cases of the [select] can
    proceed, and Shutdown returns nil or the context's error as the
    [select] picks. *)
Theorem Shutdown_with_done_context
    (pre : list call) (c : config) (pick : bool)
    (window env : list env_event) (e : error) :
  Z.of_nat (List.length pre) <= maxInt ->
  count is_shutdown pre = 0%nat ->
  run pre start = Finished c ->
  (0 < inflight c)%nat ->
  (count is_env_exit window <= inflight c)%nat ->
  let res := Shutdown_window (Some e) pick window env (coord c) in
  sd_outcome res
    = Returns (if (count is_env_exit window <? inflight c)%nat then Some e
               else if pick then None else Some e) /\
  sd_waited res = 0%nat /\
  draining (sd_state res) (inflight c - count is_env_exit window).
Proof.
  intros Hlen Hno Hrun Hpos Hc.
  destruct (first_Shutdown_starts_draining pre c Hlen Hno Hrun)
    as (Hmax & g1 & E & Hd).
  destruct (env_steps_draining e window g1 (inflight c) Hd Hmax Hc)
    as (g' & Es & Hd').
  cbv zeta. unfold Shutdown_window. rewrite E, Es.
  pose proof Hd' as (_ & _ & _ & Hch).
  destruct (count is_env_exit window <? inflight c)%nat eqn:Elt.
  - apply Nat.ltb_lt in Elt.
    destruct (inflight c - count is_env_exit window)%nat as [|m] eqn:Em;
      [lia|].
    rewrite (await_done_open _ _ _ _ Hch).
    cbn [sd_outcome sd_waited sd_state]. auto.
  - apply Nat.ltb_ge in Elt.
    replace (inflight c - count is_env_exit window)%nat with 0%nat in *
      by lia.
    destruct env; cbn [await]; unfold select2; rewrite Hch;
      cbn [recv_ready ctx_Done ctx_Err sd_outcome sd_waited sd_state]; auto.
Qed.

Lemma Shutdown_with_done_context_witness :
  let g := mkShutdowner false open_chan false 1 in
  let late := Shutdown_window (Some DeadlineExceeded) true [EnvTryEnter]
                [EnvExit] g in
  let raced := Shutdown_window (Some DeadlineExceeded) true [EnvExit] [] g in
  (sd_outcome late = Returns (Some DeadlineExceeded) /\
   sd_waited late = 0%nat /\ draining (sd_state late) 1) /\
  (sd_outcome raced = Returns None /\
   sd_waited raced = 0%nat /\ draining (sd_state raced) 0).
Proof.
  split.
  - apply (Shutdown_with_done_context [CallTryEnter]
             (mkConfig (mkShutdowner false open_chan false 1) 1) true
             [EnvTryEnter] [EnvExit] DeadlineExceeded).
    + vm_compute. discriminate.
    + reflexivity.
    + reflexivity.
    + apply le_n.
    + vm_compute. apply le_S, le_n.
  - apply (Shutdown_with_done_context [CallTryEnter]
             (mkConfig (mkShutdowner false open_chan false 1) 1) true
             [EnvExit] [] DeadlineExceeded).
    + vm_compute. discriminate.
    + reflexivity.
    + reflexivity.
    + apply le_n.
    + vm_compute. apply le_n.
Defined.

(** ** After Shutdown *)

Section AfterShutdown.

Context {W : Type} {RW : ResponseWriter W} {Request : Type}.

(** X11. Once [Shutdown] has returned, with nil or with the context's
    error, whatever happened while it waited, every request that comes
    through [Middleware] afterwards gets status 503 and the wrapped handler
    is never called; the Shutdowner is not changed by these requests. *)
Theorem requests_after_Shutdown_are_rejected
    (next : @Handler W Request) (w : W) (reqs : list Request)
    (g : Shutdowner) (ctx : context) (pick : bool) (env : list env_event)
    (err : option error) :
  lock g = false ->
  sd_outcome (Shutdown ctx pick env g) = Returns err ->
  let g' := sd_state (Shutdown ctx pick env g) in
  serve_all (Middleware next) w reqs g'
    = (Returns tt, fold_left (fun w' _ => WriteHeader 503 w') reqs w, g').
Proof.
  intros Hl Hret g'. subst g'. revert Hret. unfold Shutdown.
  destruct g as [l c rq a]. cbn [lock] in Hl. subst l.
  rewrite Shutdown_locked_free by reflexivity.
  destruct (a =? 0); [destruct (close c) as [p|c']|];
    cbn [sd_outcome sd_state]; try discriminate; intros _;
    apply serve_all_rejected; apply await_keeps_request; reflexivity.
Qed.

End AfterShutdown.

Lemma requests_after_Shutdown_are_rejected_witness :
  let next : @Handler ResponseRecorder unit :=
    fun w _ g => (Returns tt, mkRecorder (Some 200), g) in
  let g' := sd_state (Shutdown None true [EnvCtxDone DeadlineExceeded]
                        (mkShutdowner false open_chan false 1)) in
  serve_all (Middleware next) (mkRecorder None) [tt; tt] g'
    = (Returns tt,
       fold_left (fun w' _ => WriteHeader 503 w') [tt; tt] (mkRecorder None),
       g').
Proof.
  intros next.
  apply (requests_after_Shutdown_are_rejected next (mkRecorder None) [tt; tt]
           (mkShutdowner false open_chan false 1) None true
           [EnvCtxDone DeadlineExceeded] (Some DeadlineExceeded));
    reflexivity.
Defined.

(** ** Where Shutdown cannot succeed *)

Lemma await_nil_channel pick env : forall ctx g,
  closed g = nil_chan ->
  closed (sd_state (await pick env ctx g)) = nil_chan.
Proof.
  induction env as [|ev env IH]; intros ctx g H; cbn [await];
    destruct (select2 _ _ _ _ _); cbn [sd_state]; auto.
  destruct (nil_channel_stays_nil g H) as (A & B & _).
  destruct ev; unfold env_step; cbn [sd_state]; apply IH; assumption.
Qed.

(** X12. A Shutdowner that was not made by [NewShutdowner] never reports a
    successful shutdown: from the zero value, after any calls, with any
    context and whatever the handlers do while it waits, [Shutdown] does not
    return nil (it panics, blocks or returns the context's error). *)
Theorem zero_value_Shutdown_never_returns_nil
    (calls : list call) (ctx : context) (pick : bool) (env : list env_event) :
  sd_outcome
    (Shutdown ctx pick env (coord (config_of (run calls zero_start))))
    <> Returns None.
Proof.
  pose proof (run_nil_channel calls zero_start eq_refl) as Hnil.
  set (g := coord (config_of (run calls zero_start))) in *.
  intros Hret. unfold Shutdown in Hret.
  destruct (nil_channel_stays_nil g Hnil) as (_ & _ & C).
  destruct (Shutdown_locked g) as [[u|p|] g1]; cbn [snd] in C;
    cbn [sd_outcome] in Hret; try discriminate.
  pose proof (await_nil_closed pick env ctx g1 Hret) as Hcl.
  rewrite (await_nil_channel pick env ctx g1 C) in Hcl. discriminate.
Qed.





(** ** The error of ShutdownWithServer *)



(** ** Waiting again *)

(** X15. Waiting again after a deadline works as long as a handler is still
    running at the second call: when the first Shutdown returned the
    context's error with operations in flight, a second Shutdown with a
    context that stays live returns nil once the remaining operations have
    called Exit. *)
Theorem Shutdown_again_after_deadline
    (pre : list call) (c : config) (pick pick' : bool)
    (before after env : list env_event) (e : error) :
  Z.of_nat (List.length pre) <= maxInt ->
  count is_shutdown pre = 0%nat ->
  run pre start = Finished c ->
  forallb no_ctx_done before = true ->
  (count is_env_exit before < inflight c)%nat ->
  forallb no_ctx_done env = true ->
  (inflight c - count is_env_exit before <= count is_env_exit env)%nat ->
  let first := Shutdown None pick (before ++ EnvCtxDone e :: after) (coord c) in
  sd_outcome first = Returns (Some e) /\
  sd_outcome (Shutdown None pick' env (sd_state first)) = Returns None.
Proof.
  intros Hlen Hno Hrun Hlive Hlt Hlive' Hexits.
  destruct (first_Shutdown_starts_draining pre c Hlen Hno Hrun)
    as (Hmax & g1 & E & Hd).
  destruct (await_context_done pick e after before g1 (inflight c)
              Hd Hmax Hlive Hlt) as (g' & Eaw & Hd').
  cbv zeta. unfold Shutdown at 1 3. rewrite E, Eaw.
  cbn [sd_outcome sd_state]. split; [reflexivity|].
  destruct (inflight c - count is_env_exit before)%nat as [|m] eqn:Em; [lia|].
  rewrite (Shutdown_again_while_in_flight g' m None pick' env Hd').
  apply (await_returns_nil pick' env g' (S m)); try assumption. lia.
Qed.

Lemma Shutdown_again_after_deadline_witness :
  let first := Shutdown None true ([EnvExit] ++ EnvCtxDone DeadlineExceeded :: [])
                 (mkShutdowner false open_chan false 2) in
  sd_outcome first = Returns (Some DeadlineExceeded) /\
  sd_outcome (Shutdown None false [EnvTryEnter; EnvExit] (sd_state first))
    = Returns None.
Proof.
  apply (Shutdown_again_after_deadline [CallTryEnter; CallTryEnter]
           (mkConfig (mkShutdowner false open_chan false 2) 2) true false
           [EnvExit] [] [EnvTryEnter; EnvExit] DeadlineExceeded).
  - vm_compute. discriminate.
  - reflexivity.
  - reflexivity.
  - reflexivity.
  - vm_compute. apply le_n.
  - reflexivity.
  - vm_compute. apply le_n.
Defined.

(** ** ShutdownWithServer without an open channel *)

(** X16. [ShutdownWithServer] on a Shutdowner with nothing in flight whose
    channel is not open, because it is the zero value (the example of the
    test file) or because a Shutdown has already completed: the goroutine
    that runs [g.Shutdown(ctx)] panics in [close], whatever the context and
    whatever [server.Shutdown] does, so no error value is returned. *)
Theorem ShutdownWithServer_panics_without_open_channel
    (g : Shutdowner) (ctx : context) (pick : bool) (env : list env_event)
    (serverShutdown : outcome (option error)) (fresh : nat) :
  lock g = false ->
  activeConnections g = 0 ->
  closed g <> open_chan ->
  fst (ShutdownWithServer ctx pick env serverShutdown fresh g)
    = Panics (match closed g with
              | nil_chan => close_of_nil_channel
              | _ => close_of_closed_channel
              end).
Proof.
  destruct g as [l c rq a].
  cbn [lock closed shutdownRequested activeConnections]. intros -> -> Hc.
  unfold ShutdownWithServer, Shutdown.
  rewrite Shutdown_locked_free by reflexivity. cbn [Z.eqb].
  destruct c; [| congruence |]; cbn [close sd_outcome fst];
    destruct serverShutdown; reflexivity.
Qed.

Lemma ShutdownWithServer_panics_without_open_channel_witness :
  fst (ShutdownWithServer None true [] (Returns None) 7 zeroShutdowner)
    = Panics close_of_nil_channel.
Proof.
  apply (ShutdownWithServer_panics_without_open_channel zeroShutdowner None
           true [] (Returns None) 7); [reflexivity | reflexivity | discriminate].
Defined.
